(** * Space-weather alert bot: risk scoring, message layout and the
      fetch / score / deduplicate / notify cycle of [space_alerrt_bot.py].

    The Python program is embedded shallowly.  Values that travel through
    JSON (provider payloads, the cache file, the status file) are modelled
    by [pyval]; Python exceptions by the error type [outcome]; the two files
    written by the program and the lines it prints by an explicit store and
    an event log threaded through the monad [M]. *)

From Stdlib Require Import ZArith List String Ascii Bool Lia.
From Stdlib Require Import Floats.SpecFloat.
Import ListNotations.

Local Open Scope string_scope.
Local Open Scope list_scope.
Local Open Scope Z_scope.

#[local] Set Warnings "-register-all".

(** ** Python values *)

(** Python [float] is IEEE-754 binary64: [spec_float] at precision 53 and
    maximal exponent 1024. *)
Definition prec : Z := 53.
Definition emax : Z := 1024.

(** Values as [json.load] / [requests.Response.json] build them, which are
    also the values [json.dump] accepts.  A [dict] keeps its insertion order
    and has string keys. *)
Inductive pyval : Type :=
| PNone
| PBool (b : bool)
| PInt (z : Z)
| PFloat (f : spec_float)
| PStr (s : string)
| PList (l : list pyval)
| PDict (d : list (string * pyval)).

(** The exception classes that can reach a handler of the program. *)
Inductive exn : Type :=
| RequestException
| TypeError
| KeyError
| IndexError
| AttributeError
| ValueError
| OverflowError
| OSError
| TwilioException.

Inductive outcome (A : Type) : Type :=
| Ok (a : A)
| Raise (e : exn).
Arguments Ok {A} a.
Arguments Raise {A} e.

Definition obind {A B : Type} (m : outcome A) (k : A -> outcome B) : outcome B :=
  match m with
  | Ok a => k a
  | Raise e => Raise e
  end.

Declare Scope outcome_scope.
Delimit Scope outcome_scope with outcome.
Notation "x <-- m ;;; k" := (obind m (fun x => k))
  (at level 61, m at next level, right associativity) : outcome_scope.

(** [bool(v)]. *)
Definition py_truthy (v : pyval) : bool :=
  match v with
  | PNone => false
  | PBool b => b
  | PInt z => negb (z =? 0)
  | PFloat f =>
      match f with
      | S754_zero _ => false
      | _ => true
      end
  | PStr s => negb (String.eqb s "")
  | PList l => match l with [] => false | _ => true end
  | PDict d => match d with [] => false | _ => true end
  end.

(** [a or b] on values. *)
Definition py_or (a b : pyval) : pyval := if py_truthy a then a else b.

(** [v == s] for a string literal [s]: only a [str] with the same
    characters is equal to a [str]. *)
Definition py_eq_str (v : pyval) (s : string) : bool :=
  match v with
  | PStr s' => String.eqb s' s
  | _ => false
  end.

(** Comparison of floats; every comparison with a NaN is false.
    [SFcompare] orders the canonical representations, which is what a
    binary64 value is. *)
Definition float_ge (x y : spec_float) : bool :=
  match SFcompare x y with
  | Some Gt | Some Eq => true
  | _ => false
  end.

Definition float_gt (x y : spec_float) : bool :=
  match SFcompare x y with
  | Some Gt => true
  | _ => false
  end.

Definition float_le (x y : spec_float) : bool := float_ge y x.

(** The float nearest to an integer (ties to even), as [float(int)] computes
    it; an integer beyond the float range rounds to an infinity here. *)
Definition float_of_Z (z : Z) : spec_float := binary_normalize prec emax z 0 false.

Definition f3_0 : spec_float := Eval cbv in float_of_Z 3.
Definition f6_0 : spec_float := Eval cbv in float_of_Z 6.

(** ** Access to JSON values *)

Fixpoint dict_get (d : list (string * pyval)) (k : string) : option pyval :=
  match d with
  | [] => None
  | (k', v) :: d' => if String.eqb k' k then Some v else dict_get d' k
  end.

(** [d[k] = v]: an existing key keeps its place, a new key goes last. *)
Fixpoint dict_set (d : list (string * pyval)) (k : string) (v : pyval)
  : list (string * pyval) :=
  match d with
  | [] => [(k, v)]
  | (k', v') :: d' =>
      if String.eqb k' k then (k, v) :: d' else (k', v') :: dict_set d' k v
  end.

(** [v.get(k, default)]; only a [dict] has the method. *)
Definition py_get (v : pyval) (k : string) (default : pyval) : outcome pyval :=
  match v with
  | PDict d =>
      Ok (match dict_get d k with
          | Some x => x
          | None => default
          end)
  | _ => Raise AttributeError
  end.

(** The first character of a string: its first byte and the UTF-8
    continuation bytes (binary 10xxxxxx) that follow it. *)
Fixpoint continuation_bytes (s : string) : string :=
  match s with
  | String c s' =>
      if (128 <=? nat_of_ascii c)%nat && (nat_of_ascii c <? 192)%nat
      then String c (continuation_bytes s')
      else EmptyString
  | EmptyString => EmptyString
  end.

(** [v[0]].  The keys of a JSON object are strings, so 0 is never a key. *)
Definition py_index0 (v : pyval) : outcome pyval :=
  match v with
  | PList (x :: _) => Ok x
  | PList [] => Raise IndexError
  | PStr (String c s) => Ok (PStr (String c (continuation_bytes s)))
  | PStr EmptyString => Raise IndexError
  | PDict _ => Raise KeyError
  | PNone | PBool _ | PInt _ | PFloat _ => Raise TypeError
  end.

(** [k in v] for a string [k]: a key of a dict, an element of a list, a
    substring of a string. *)
Definition py_contains_str (v : pyval) (k : string) : outcome bool :=
  match v with
  | PDict d => Ok (match dict_get d k with Some _ => true | None => false end)
  | PList l => Ok (existsb (fun x => py_eq_str x k) l)
  | PStr s => Ok (match String.index 0 k s with Some _ => true | None => false end)
  | PNone | PBool _ | PInt _ | PFloat _ => Raise TypeError
  end.

(** [v[k]] for a string [k]. *)
Definition py_getitem_str (v : pyval) (k : string) : outcome pyval :=
  match v with
  | PDict d =>
      match dict_get d k with
      | Some x => Ok x
      | None => Raise KeyError
      end
  | _ => Raise TypeError
  end.

(** [for x in v]: the items a loop over [v] visits.  A dict yields its keys,
    a string its characters. *)
Fixpoint chars_of (fuel : nat) (s : string) : list pyval :=
  match fuel, s with
  | S n, String c s' =>
      let k := continuation_bytes s' in
      PStr (String c k)
      :: chars_of n (substring (String.length k) (String.length s') s')
  | _, _ => []
  end.

Definition py_iter (v : pyval) : outcome (list pyval) :=
  match v with
  | PList l => Ok l
  | PDict d => Ok (map (fun kv => PStr (fst kv)) d)
  | PStr s => Ok (chars_of (String.length s) s)
  | PNone | PBool _ | PInt _ | PFloat _ => Raise TypeError
  end.

(** ** Provider replies *)

(** What [requests.get(url, timeout=15)], [raise_for_status()] and [r.json()]
    can do between them.  Each failure is a subclass of
    [requests.exceptions.RequestException] (for a body that is not JSON,
    since requests 2.27). *)
Inductive http_reply : Type :=
| ConnectionFailed
| TimedOut
| BadStatus
| BodyNotJson
| JsonBody (v : pyval).

Definition http_get_json (r : http_reply) : outcome pyval :=
  match r with
  | JsonBody v => Ok v
  | ConnectionFailed | TimedOut | BadStatus | BodyNotJson => Raise RequestException
  end.

(** For closed examples: a [float] that rejects every string.  The examples
    give the program JSON numbers only, so no string is ever converted and
    each of them holds for every parser. *)
Definition no_text_floats : string -> option spec_float := fun _ => None.

Section Runtime.

(** [float(s)] for a string [s]: the parser of the Python runtime, [None]
    when it rejects the string.  The program is verified for any parser. *)
Variable float_of_str : string -> option spec_float.

(** [float(v)]. *)
Definition py_float (v : pyval) : outcome spec_float :=
  match v with
  | PFloat f => Ok f
  | PInt z =>
      match float_of_Z z with
      | S754_infinity _ => Raise OverflowError
      | f => Ok f
      end
  | PBool b => Ok (float_of_Z (if b then 1 else 0))
  | PStr s =>
      match float_of_str s with
      | Some f => Ok f
      | None => Raise ValueError
      end
  | PNone | PList _ | PDict _ => Raise TypeError
  end.

(** [v > n] for an integer literal [n] that a float represents exactly
    (600 and 1000 here).  [bool] is a subclass of [int]. *)
Definition py_gt_int (v : pyval) (n : Z) : outcome bool :=
  match v with
  | PInt z => Ok (z >? n)
  | PBool b => Ok ((if b then 1 else 0) >? n)
  | PFloat f => Ok (float_gt f (float_of_Z n))
  | PNone | PStr _ | PList _ | PDict _ => Raise TypeError
  end.

(** ** Risk scoring *)

(** The three strings the scorer returns. *)
Inductive risk : Type := green | yellow | red.

Definition risk_eqb (a b : risk) : bool :=
  match a, b with
  | green, green | yellow, yellow | red, red => true
  | _, _ => false
  end.

Definition risk_str (r : risk) : string :=
  match r with
  | green => "green"
  | yellow => "yellow"
  | red => "red"
  end.

Local Open Scope outcome_scope.

Definition score_risk (kp_value flare_class cme_speed : pyval) : outcome risk :=
  kp_risk <--
    match kp_value with
    | PNone => Ok green
    | _ =>
        kp <-- py_float kp_value ;;;
        Ok (if float_ge kp f6_0 then red
            else if float_ge kp f3_0 then yellow
            else green)
    end ;;;
  let flare_risk :=
    if py_eq_str flare_class "X" then red
    else if py_eq_str flare_class "M" then yellow
    else green in
  cme_risk <--
    match cme_speed with
    | PNone => Ok green
    | _ =>
        over1000 <-- py_gt_int cme_speed 1000 ;;;
        if over1000 then Ok red
        else
          over600 <-- py_gt_int cme_speed 600 ;;;
          Ok (if over600 then yellow else green)
    end ;;;
  if risk_eqb kp_risk red || risk_eqb flare_risk red || risk_eqb cme_risk red
  then Ok red
  else if risk_eqb kp_risk yellow || risk_eqb flare_risk yellow
          || risk_eqb cme_risk yellow
  then Ok yellow
  else Ok green.

(** ** Fetching the three indicators *)

(** The dict [{"kp": ..., "time": ..., "raw": ...}]. *)
Record kp_data : Type := mk_kp_data {
  kd_kp : pyval;
  kd_time : pyval;
  kd_raw : pyval
}.

(** The dict [{"class": ..., "time": ..., "raw": ...}]. *)
Record flare_data : Type := mk_flare_data {
  fd_class : pyval;
  fd_time : pyval;
  fd_raw : pyval
}.

(** The dict [{"speed": ..., "raw": ...}]. *)
Record cme_data : Type := mk_cme_data {
  cd_speed : pyval;
  cd_raw : pyval
}.

(** [for key in keys: if key in latest: kp = latest[key]; break], from
    [kp = None]. *)
Fixpoint lookup_first (latest : pyval) (keys : list string) : outcome pyval :=
  match keys with
  | [] => Ok PNone
  | key :: rest =>
      present <-- py_contains_str latest key ;;;
      if present then py_getitem_str latest key else lookup_first latest rest
  end.

(** [latest.get(k) or latest.get(k1) or ...], evaluated left to right. *)
Fixpoint get_or (latest : pyval) (k : string) (ks : list string) : outcome pyval :=
  v <-- py_get latest k PNone ;;;
  match ks with
  | [] => Ok v
  | k' :: ks' => if py_truthy v then Ok v else get_or latest k' ks'
  end.

Definition fetch_latest_kp (reply : http_reply) : outcome (option kp_data) :=
  arr <-- http_get_json reply ;;;
  if negb (py_truthy arr) then Ok None
  else
    latest <-- py_index0 arr ;;;
    kp <-- lookup_first latest ["kp_index"; "kp"; "Kp"] ;;;
    t <-- get_or latest "time_tag" ["date_time"; "timestamp"; "date"] ;;;
    kp' <-- match kp with
            | PNone => Ok PNone
            | _ => f <-- py_float kp ;;; Ok (PFloat f)
            end ;;;
    Ok (Some (mk_kp_data kp' t latest)).

(** The body of the [try] of [fetch_latest_nasa_flare]. *)
Definition fetch_flare_body (reply : http_reply) : outcome (option flare_data) :=
  flares <-- http_get_json reply ;;;
  if negb (py_truthy flares) then Ok None
  else
    latest_flare <-- py_index0 flares ;;;
    class_type <-- py_get latest_flare "classType" (PStr "B0.0") ;;;
    flare_class <-- py_index0 class_type ;;;
    time_tag <-- py_get latest_flare "beginTime" PNone ;;;
    Ok (Some (mk_flare_data flare_class time_tag latest_flare)).

(** The loop of [fetch_latest_cme] over the analyses. *)
Fixpoint first_significant (analyses : list pyval) : outcome (option cme_data) :=
  match analyses with
  | [] => Ok None
  | analysis :: rest =>
      is_most_accurate <-- py_get analysis "isMostAccurate" PNone ;;;
      speed <-- py_get analysis "speed" PNone ;;;
      hit <-- (if py_truthy is_most_accurate && py_truthy speed
               then py_gt_int speed 600
               else Ok false) ;;;
      if hit then Ok (Some (mk_cme_data speed analysis))
      else first_significant rest
  end.

(** The body of the [try] of [fetch_latest_cme]. *)
Definition fetch_cme_body (reply : http_reply) : outcome (option cme_data) :=
  cme_analyses <-- http_get_json reply ;;;
  if negb (py_truthy cme_analyses) then Ok None
  else
    items <-- py_iter cme_analyses ;;;
    first_significant items.

(** ** Messages *)

(** A formatted string is kept as its pieces: literal text, and values that
    an f-string renders with [str()]. *)
Inductive frag : Type :=
| Lit (s : string)
| Fmt (v : pyval).

Definition text : Type := list frag.

Record phrases : Type := mk_phrases {
  title_red : string;
  title_yellow : string;
  title_green : string;
  gps_advice : string;
  power_advice : string;
  flare_risk_note : string;
  when : string
}.

Definition phrases_en : phrases := {|
  title_red := "⚠ High Space Risk — Action Needed!";
  title_yellow := "⚠ Moderate Space Risk — Caution";
  title_green := "✅ Space weather normal";
  gps_advice := "GPS & navigation may be inaccurate. Avoid precision machine work (seeding, mapping).";
  power_advice := "Power or communication disruptions possible — keep pumps/devices charged or on standby.";
  flare_risk_note := "Solar Flare/CME Risk: Radio Blackouts & communication loss possible.";
  when := "Observed at"
|}.

Definition phrases_ml : phrases := {|
  title_red := "⚠ സൂര്യ പ്രവൃത്തിയൂൻ ഉയർന്നിരിക്കുന്നു — ശ്രദ്ധ വേണം";
  title_yellow := "⚠ മിതമായ സൂര്യ പ്രവൃത്തി — ജാഗ്രത";
  title_green := "✅ സാധാരണ സ്ഫേസ് വേതർ";
  gps_advice := "GPS ശതം കൃത്യമായിരിക്കില്ല. യന്ത്രവലംബ ജോലി മാറ്റിയിടുക.";
  power_advice := "വൈദ്യുതി/കമ്യൂണിക്കേഷൻ പ്രശ്നം സാധ്യത — പമ്പുകൾ ചാർജ് ചെയ്യുക.";
  flare_risk_note := "സോളാർ ഫ്ലെയർ/CME റിസ്ക്: റേഡിയോ തടസ്സങ്ങൾ സാധ്യത.";
  when := "കണ്ടെടുത്തത്"
|}.

(** [PHRASES.get(lang, PHRASES["en"])]. *)
Definition PHRASES (lang : string) : phrases :=
  if String.eqb lang "en" then phrases_en
  else if String.eqb lang "ml" then phrases_ml
  else phrases_en.

Definition newline : string := String (ascii_of_nat 10) EmptyString.

(** [sep.join(lines)]. *)
Fixpoint join (sep : string) (lines : list text) : text :=
  match lines with
  | [] => []
  | [l] => l
  | l :: ls => l ++ Lit sep :: join sep ls
  end.

(** The list [body_lines] of [format_message] at the point where it is
    joined. *)
Definition body_lines (r : risk) (kp_val time_str flare_class cme_speed : pyval)
    (lang : string) : list text :=
  let p := PHRASES lang in
  let title :=
    match r with
    | red => title_red p
    | yellow => title_yellow p
    | green => title_green p
    end in
  let line2 := [Lit (when p); Lit ": "; Fmt time_str; Lit " (Kp="; Fmt kp_val; Lit ")"] in
  let line2 :=
    if py_truthy flare_class
       && (py_eq_str flare_class "X" || py_eq_str flare_class "M")
    then line2 ++ [Lit " | Flare Class: "; Fmt flare_class]
    else line2 in
  let line2 :=
    if py_truthy cme_speed
    then line2 ++ [Lit " | CME Speed: "; Fmt cme_speed; Lit " km/s"]
    else line2 in
  let lines := [[Lit title]; line2] in
  match r with
  | red =>
      lines ++ [[Lit (gps_advice p)]; [Lit (power_advice p)]; [Lit (flare_risk_note p)]]
  | yellow =>
      let lines := lines ++ [[Lit (gps_advice p)]] in
      if py_eq_str flare_class "M" || py_truthy cme_speed
      then lines ++ [[Lit (flare_risk_note p)]]
      else lines
  | green => lines ++ [[Lit "No immediate action needed."]]
  end.

Definition format_message (r : risk) (kp_val time_str flare_class cme_speed : pyval)
    (lang : string) : text :=
  join newline (body_lines r kp_val time_str flare_class cme_speed lang).

(** ** The store, the log and the cycle monad *)

(** What is at a path, as [json.load(open(...))] meets it: no file, a file
    from which no JSON value loads, or a file holding a JSON value.

    Whether the path can be opened at all is kept apart, in [access]
    below.  The functions [load_cache], [save_cache], [write_status] and
    [check_and_alert] are those of a store whose two paths are regular
    files, or absent, that open for reading and for writing: there
    [FileUnreadable] is a file whose content is not JSON.  The functions
    [load_cache_at], [save_cache_at], [write_status_at] and
    [check_and_alert_at] take any access, and [open] can fail in them; at an
    access where the paths open they are the functions above (lemma
    [check_and_alert_at_full]). *)
Inductive file : Type :=
| FileMissing
| FileUnreadable
| FileJson (v : pyval).

(** [last_alert_cache.json] and [status.json]. *)
Record files : Type := mk_files {
  cache_file : file;
  status_file : file
}.

(** The lines the program prints. *)
Inductive log_line : Type :=
| LogNoKp
| LogFlareError (e : exn)
| LogCmeError (e : exn)
| LogSent (sid : string) (r : risk)
| LogNoAlert (kp flare_class cme_speed : pyval)
| LogCheckError (e : exn).

(** What a cycle does to the outside: it prints, and it calls the
    messaging gateway ([send_whatsapp]) with a message body. *)
Inductive event : Type :=
| Printed (l : log_line)
| WhatsApp (body : text).

(** A computation reads and writes the two files, appends to the event
    log, and returns or raises.  Writes and events that happened before an
    exception stay. *)
Definition M (A : Type) : Type := files -> outcome A * files * list event.

Definition ret {A : Type} (a : A) : M A := fun fs => (Ok a, fs, []).

Definition bind {A B : Type} (m : M A) (k : A -> M B) : M B :=
  fun fs =>
    match m fs with
    | (Ok a, fs1, ev1) =>
        match k a fs1 with
        | (r, fs2, ev2) => (r, fs2, ev1 ++ ev2)
        end
    | (Raise e, fs1, ev1) => (Raise e, fs1, ev1)
    end.

Definition lift {A : Type} (o : outcome A) : M A := fun fs => (o, fs, []).

Definition emit (ev : event) : M unit := fun fs => (Ok tt, fs, [ev]).

Definition print (l : log_line) : M unit := emit (Printed l).

(** [try: m except <classes>: h]. *)
Definition try_except {A : Type} (m : M A) (caught : exn -> bool) (h : exn -> M A)
  : M A :=
  fun fs =>
    match m fs with
    | (Raise e, fs1, ev1) =>
        if caught e then
          match h e fs1 with
          | (r, fs2, ev2) => (r, fs2, ev1 ++ ev2)
          end
        else (Raise e, fs1, ev1)
    | done => done
    end.

Declare Scope cycle_scope.
Delimit Scope cycle_scope with cycle.
Notation "x <- m ;; k" := (bind m (fun x => k))
  (at level 61, m at next level, right associativity) : cycle_scope.
Notation "m ;; k" := (bind m (fun _ => k))
  (at level 61, right associativity) : cycle_scope.

Local Open Scope cycle_scope.

Definition is_request_exception (e : exn) : bool :=
  match e with
  | RequestException => true
  | _ => false
  end.

Definition any_exception (e : exn) : bool := true.

Definition fetch_latest_nasa_flare (reply : http_reply) : M (option flare_data) :=
  try_except (lift (fetch_flare_body reply)) is_request_exception
    (fun e => print (LogFlareError e) ;; ret None).

Definition fetch_latest_cme (reply : http_reply) : M (option cme_data) :=
  try_except (lift (fetch_cme_body reply)) is_request_exception
    (fun e => print (LogCmeError e) ;; ret None).

(** [load_cache()] at a path that opens for reading: the bare [except]
    turns every failure of [json.load] into the empty dict. *)
Definition load_cache : M pyval :=
  fun fs =>
    match cache_file fs with
    | FileMissing => (Ok (PDict []), fs, [])
    | FileUnreadable => (Ok (PDict []), fs, [])
    | FileJson v => (Ok v, fs, [])
    end.

(** [save_cache(d)] at a path that opens for writing; what is read back is
    the value that was dumped.  [save_cache_at] is the function for any
    path. *)
Definition save_cache (d : pyval) : M unit :=
  fun fs => (Ok tt, mk_files (FileJson d) (status_file fs), []).

(** [with open("status.json", "w") as f: json.dump(current_status, f)] at a
    path that opens for writing; [write_status_at] is the function for any
    path. *)
Definition write_status (current_status : pyval) : M unit :=
  fun fs => (Ok tt, mk_files (cache_file fs) (FileJson current_status), []).

(** [d[k] = v]. *)
Definition py_setitem (d : pyval) (k : string) (v : pyval) : outcome pyval :=
  match d with
  | PDict l => Ok (PDict (dict_set l k v))
  | _ => Raise TypeError
  end.

(** What one cycle receives from outside the program: the three provider
    replies, the clock readings, and the answer of the messaging gateway
    (a dispatch id, or an exception). *)
Record cycle_env : Type := mk_env {
  kp_reply : http_reply;
  flare_reply : http_reply;
  cme_reply : http_reply;
  now_iso : string;
  clean_time : string;
  sent_at : string;
  gateway : outcome string
}.

(** [send_whatsapp(message)]. *)
Definition send_whatsapp (e : cycle_env) (message : text) : M string :=
  emit (WhatsApp message) ;; lift (gateway e).

Definition current_status (r : risk) (kp flare_class cme_speed : pyval)
    (time : string) : pyval :=
  PDict [("risk", PStr (risk_str r));
         ("kp_value", kp);
         ("flare_class", flare_class);
         ("cme_speed", cme_speed);
         ("time", PStr time)].

(** The body of the [try] of [check_and_alert]. *)
Definition check_body (e : cycle_env) : M unit :=
  kp_data <- lift (fetch_latest_kp (kp_reply e)) ;;
  match kp_data with
  | None => print LogNoKp
  | Some kd =>
      let kp := kd_kp kd in
      let t := py_or (kd_time kd) (PStr (now_iso e)) in
      flare_data <- fetch_latest_nasa_flare (flare_reply e) ;;
      let flare_class :=
        match flare_data with
        | Some fd => fd_class fd
        | None => PNone
        end in
      cme_data <- fetch_latest_cme (cme_reply e) ;;
      let cme_speed :=
        match cme_data with
        | Some cd => cd_speed cd
        | None => PNone
        end in
      r <- lift (score_risk kp flare_class cme_speed) ;;
      cache <- load_cache ;;
      last <- lift (py_get cache "last_kp" PNone) ;;
      should_send <-
        (if negb (py_truthy last) then ret true
         else
           last_risk <- lift (py_get cache "last_risk" PNone) ;;
           ret (negb (py_eq_str last_risk (risk_str r)))) ;;
      write_status (current_status r kp flare_class cme_speed (clean_time e)) ;;
      if should_send : bool then
        let msg_en := format_message r kp t flare_class cme_speed "en" in
        let msg_ml := format_message r kp t flare_class cme_speed "ml" in
        let full_msg := msg_en ++ [Lit (newline ++ newline ++ "---" ++ newline)%string] ++ msg_ml in
        sid <- send_whatsapp e full_msg ;;
        print (LogSent sid r) ;;
        cache <- lift (py_setitem cache "last_kp" kp) ;;
        cache <- lift (py_setitem cache "last_time" t) ;;
        cache <- lift (py_setitem cache "last_risk" (PStr (risk_str r))) ;;
        cache <- lift (py_setitem cache "last_sent_sid" (PStr sid)) ;;
        cache <- lift (py_setitem cache "last_sent_at" (PStr (sent_at e))) ;;
        save_cache cache
      else print (LogNoAlert kp flare_class cme_speed)
  end.

Definition check_and_alert (e : cycle_env) : M unit :=
  try_except (check_body e) any_exception (fun ex => print (LogCheckError ex)).

(** The scheduler: one cycle at start, then one per tick, each with what
    the outside answers at that time. *)
Fixpoint run_cycles (es : list cycle_env) (fs : files) : files * list event :=
  match es with
  | [] => (fs, [])
  | e :: es' =>
      match check_and_alert e fs with
      | (_, fs1, ev1) =>
          match run_cycles es' fs1 with
          | (fs2, ev2) => (fs2, ev1 ++ ev2)
          end
      end
  end.

(** The number of calls of the notifier in a log. *)
Fixpoint notifications (evs : list event) : nat :=
  match evs with
  | [] => 0%nat
  | WhatsApp _ :: evs' => S (notifications evs')
  | Printed _ :: evs' => notifications evs'
  end.

(** ** The cycle on paths that may not open *)

(** What [open] does at the two paths during a run: whether the cache path
    opens for reading and for writing, and whether the status path opens
    for writing.  A directory at a path, or a path without the permission,
    does not open; an absent file that cannot be created does not open for
    writing.  The program never changes this. *)
Record access : Type := mk_access {
  cache_readable : bool;
  cache_writable : bool;
  status_writable : bool
}.

Definition full_access : access := mk_access true true true.

(** [load_cache()]: [os.path.exists] decides first; when [open] fails the
    bare [except] gives the empty dict, as when [json.load] fails. *)
Definition load_cache_at (acc : access) : M pyval :=
  fun fs =>
    match cache_file fs with
    | FileMissing => (Ok (PDict []), fs, [])
    | FileUnreadable => (Ok (PDict []), fs, [])
    | FileJson v =>
        if cache_readable acc then (Ok v, fs, []) else (Ok (PDict []), fs, [])
    end.

(** [save_cache(d)]: [open(CACHE_FILE, "w")] raises an [OSError] when the
    path does not open for writing, and nothing is written. *)
Definition save_cache_at (acc : access) (d : pyval) : M unit :=
  fun fs =>
    if cache_writable acc
    then (Ok tt, mk_files (FileJson d) (status_file fs), [])
    else (Raise OSError, fs, []).

(** [with open("status.json", "w") as f: json.dump(current_status, f)]. *)
Definition write_status_at (acc : access) (current_status : pyval) : M unit :=
  fun fs =>
    if status_writable acc
    then (Ok tt, mk_files (cache_file fs) (FileJson current_status), [])
    else (Raise OSError, fs, []).

(** The body of the [try] of [check_and_alert], for any access. *)
Definition check_body_at (acc : access) (e : cycle_env) : M unit :=
  kp_data <- lift (fetch_latest_kp (kp_reply e)) ;;
  match kp_data with
  | None => print LogNoKp
  | Some kd =>
      let kp := kd_kp kd in
      let t := py_or (kd_time kd) (PStr (now_iso e)) in
      flare_data <- fetch_latest_nasa_flare (flare_reply e) ;;
      let flare_class :=
        match flare_data with
        | Some fd => fd_class fd
        | None => PNone
        end in
      cme_data <- fetch_latest_cme (cme_reply e) ;;
      let cme_speed :=
        match cme_data with
        | Some cd => cd_speed cd
        | None => PNone
        end in
      r <- lift (score_risk kp flare_class cme_speed) ;;
      cache <- load_cache_at acc ;;
      last <- lift (py_get cache "last_kp" PNone) ;;
      should_send <-
        (if negb (py_truthy last) then ret true
         else
           last_risk <- lift (py_get cache "last_risk" PNone) ;;
           ret (negb (py_eq_str last_risk (risk_str r)))) ;;
      write_status_at acc
        (current_status r kp flare_class cme_speed (clean_time e)) ;;
      if should_send : bool then
        let msg_en := format_message r kp t flare_class cme_speed "en" in
        let msg_ml := format_message r kp t flare_class cme_speed "ml" in
        let full_msg := msg_en ++ [Lit (newline ++ newline ++ "---" ++ newline)%string] ++ msg_ml in
        sid <- send_whatsapp e full_msg ;;
        print (LogSent sid r) ;;
        cache <- lift (py_setitem cache "last_kp" kp) ;;
        cache <- lift (py_setitem cache "last_time" t) ;;
        cache <- lift (py_setitem cache "last_risk" (PStr (risk_str r))) ;;
        cache <- lift (py_setitem cache "last_sent_sid" (PStr sid)) ;;
        cache <- lift (py_setitem cache "last_sent_at" (PStr (sent_at e))) ;;
        save_cache_at acc cache
      else print (LogNoAlert kp flare_class cme_speed)
  end.

Definition check_and_alert_at (acc : access) (e : cycle_env) : M unit :=
  try_except (check_body_at acc e) any_exception
    (fun ex => print (LogCheckError ex)).

(** The scheduler, for any access. *)
Fixpoint run_cycles_at (acc : access) (es : list cycle_env) (fs : files)
  : files * list event :=
  match es with
  | [] => (fs, [])
  | e :: es' =>
      match check_and_alert_at acc e fs with
      | (_, fs1, ev1) =>
          match run_cycles_at acc es' fs1 with
          | (fs2, ev2) => (fs2, ev1 ++ ev2)
          end
      end
  end.


(** The cache loads as the dict [d] under the access [acc]. *)
Definition cache_loads_at (acc : access) (fs : files)
    (d : list (string * pyval)) : Prop :=
  load_cache_at acc fs = (Ok (PDict d), fs, []).

(** ** The vocabulary of the specification *)

(** The order [green < yellow < red], that is NORMAL < ELEVATED < CRITICAL. *)
Definition risk_rank (r : risk) : nat :=
  match r with
  | green => 0
  | yellow => 1
  | red => 2
  end.

Definition risk_le (a b : risk) : Prop := (risk_rank a <= risk_rank b)%nat.

Definition risk_max (a b : risk) : risk :=
  if (risk_rank a <=? risk_rank b)%nat then b else a.

(** A speed as a provider reports it: a JSON integer or a JSON real. *)
Inductive number : Type :=
| NInt (z : Z)
| NFloat (f : spec_float).

(** A reading, or [None] for an indicator that is unavailable, as the
    scorer receives them from the cycle. *)
Definition of_geo (geo : option spec_float) : pyval :=
  match geo with
  | Some v => PFloat v
  | None => PNone
  end.

Definition of_flare (flare : option string) : pyval :=
  match flare with
  | Some c => PStr c
  | None => PNone
  end.

Definition of_speed (speed : option number) : pyval :=
  match speed with
  | Some (NInt z) => PInt z
  | Some (NFloat f) => PFloat f
  | None => PNone
  end.

Definition f600 : spec_float := Eval cbv in float_of_Z 600.
Definition f1000 : spec_float := Eval cbv in float_of_Z 1000.

(** The per-indicator severities, following the words of the
    specification: "value >= 6.0 -> CRITICAL; >= 3.0 -> ELEVATED; else
    NORMAL; Unavailable -> NORMAL". *)
Definition geo_severity (geo : option spec_float) : risk :=
  match geo with
  | None => green
  | Some v =>
      if float_ge v f6_0 then red
      else if float_ge v f3_0 then yellow
      else green
  end.

(** "class X -> CRITICAL; class M -> ELEVATED; else NORMAL". *)
Definition flare_severity (flare : option string) : risk :=
  match flare with
  | None => green
  | Some c =>
      if String.eqb c "X" then red
      else if String.eqb c "M" then yellow
      else green
  end.

Definition exceeds (n : number) (z : Z) (fz : spec_float) : bool :=
  match n with
  | NInt v => v >? z
  | NFloat v => float_gt v fz
  end.

(** "speed > 1000 -> CRITICAL; speed > 600 -> ELEVATED; else NORMAL". *)
Definition ejection_severity (speed : option number) : risk :=
  match speed with
  | None => green
  | Some n =>
      if exceeds n 1000 f1000 then red
      else if exceeds n 600 f600 then yellow
      else green
  end.

(** "Combined severity = max of the three per-indicator severities". *)
Definition classify (geo : option spec_float) (flare : option string)
    (speed : option number) : risk :=
  risk_max (risk_max (geo_severity geo) (flare_severity flare))
           (ejection_severity speed).

(** One speed is at most another.  The relation compares an integer with
    an integer and a real with a real; it does not relate the two kinds. *)
Inductive speed_le : number -> number -> Prop :=
| speed_le_int (a b : Z) : a <= b -> speed_le (NInt a) (NInt b)
| speed_le_float (a b : spec_float) :
    float_le a b = true -> speed_le (NFloat a) (NFloat b).

(** ** What a cycle sampled *)

(** The values [check_and_alert] holds once the three fetches have returned
    and the risk is scored. *)
Record sampling : Type := mk_sampling {
  sp_kp : kp_data;
  sp_flare : option flare_data;
  sp_cme : option cme_data;
  sp_flare_log : list event;
  sp_cme_log : list event;
  sp_risk : risk
}.

Definition kp_of (s : sampling) : pyval := kd_kp (sp_kp s).

Definition time_of (e : cycle_env) (s : sampling) : pyval :=
  py_or (kd_time (sp_kp s)) (PStr (now_iso e)).

Definition flare_class_of (s : sampling) : pyval :=
  match sp_flare s with
  | Some fd => fd_class fd
  | None => PNone
  end.

Definition cme_speed_of (s : sampling) : pyval :=
  match sp_cme s with
  | Some cd => cd_speed cd
  | None => PNone
  end.

(** The cycle run with outside [e] from store [fs] obtains a Kp reading,
    gets an answer (a reading or [None]) from the two other fetches, and
    computes the risk [sp_risk s]. *)
Definition computes (e : cycle_env) (fs : files) (s : sampling) : Prop :=
  fetch_latest_kp (kp_reply e) = Ok (Some (sp_kp s)) /\
  fetch_latest_nasa_flare (flare_reply e) fs = (Ok (sp_flare s), fs, sp_flare_log s) /\
  fetch_latest_cme (cme_reply e) fs = (Ok (sp_cme s), fs, sp_cme_log s) /\
  score_risk (kp_of s) (flare_class_of s) (cme_speed_of s) = Ok (sp_risk s).

(** The cache file loads as the dict [d]: it is absent or unloadable
    ([d] empty), or holds the JSON object [d]. *)
Definition cache_loads (fs : files) (d : list (string * pyval)) : Prop :=
  load_cache fs = (Ok (PDict d), fs, []).

(** [d.get(k)]. *)
Definition stored (d : list (string * pyval)) (k : string) : pyval :=
  match dict_get d k with
  | Some v => v
  | None => PNone
  end.

(** The cycle's decision, [not last or risk != cache.get("last_risk")]. *)
Definition should_send (d : list (string * pyval)) (r : risk) : bool :=
  negb (py_truthy (stored d "last_kp"))
  || negb (py_eq_str (stored d "last_risk") (risk_str r)).

(** The message the cycle sends. *)
Definition full_msg (e : cycle_env) (s : sampling) : text :=
  format_message (sp_risk s) (kp_of s) (time_of e s) (flare_class_of s)
    (cme_speed_of s) "en"
  ++ [Lit (newline ++ newline ++ "---" ++ newline)%string]
  ++ format_message (sp_risk s) (kp_of s) (time_of e s) (flare_class_of s)
       (cme_speed_of s) "ml".

(** The status record the cycle writes. *)
Definition status_of (e : cycle_env) (s : sampling) : pyval :=
  current_status (sp_risk s) (kp_of s) (flare_class_of s) (cme_speed_of s)
    (clean_time e).

(** The cache after a successful dispatch with id [sid]. *)
Definition cache_after (e : cycle_env) (s : sampling) (sid : string)
    (d : list (string * pyval)) : list (string * pyval) :=
  dict_set
    (dict_set
       (dict_set
          (dict_set (dict_set d "last_kp" (kp_of s)) "last_time" (time_of e s))
          "last_risk" (PStr (risk_str (sp_risk s))))
       "last_sent_sid" (PStr sid))
    "last_sent_at" (PStr (sent_at e)).


(** ** How a cycle ends *)

Definition store_of (x : outcome unit * files * list event) : files := snd (fst x).
Definition log_of (x : outcome unit * files * list event) : list event := snd x.

(** The store and the log of the three ways a cycle that computed a risk
    can end: the message went out; the gateway raised; nothing to send. *)
Definition ends_sent (e : cycle_env) (s : sampling) (d : list (string * pyval))
    (sid : string) : outcome unit * files * list event :=
  (Ok tt,
   mk_files (FileJson (PDict (cache_after e s sid d))) (FileJson (status_of e s)),
   sp_flare_log s ++ sp_cme_log s
   ++ [WhatsApp (full_msg e s); Printed (LogSent sid (sp_risk s))]).

Definition ends_failed (e : cycle_env) (fs : files) (s : sampling) (ex : exn)
  : outcome unit * files * list event :=
  (Ok tt,
   mk_files (cache_file fs) (FileJson (status_of e s)),
   sp_flare_log s ++ sp_cme_log s
   ++ [WhatsApp (full_msg e s); Printed (LogCheckError ex)]).

Definition ends_quiet (e : cycle_env) (fs : files) (s : sampling)
  : outcome unit * files * list event :=
  (Ok tt,
   mk_files (cache_file fs) (FileJson (status_of e s)),
   sp_flare_log s ++ sp_cme_log s
   ++ [Printed (LogNoAlert (kp_of s) (flare_class_of s) (cme_speed_of s))]).

(** Two more ends, on paths that do not open for writing: the message
    went out but [save_cache] raised; and the status write raised, before
    anything was sent. *)
Definition ends_unsaved (e : cycle_env) (fs : files) (s : sampling) (sid : string)
  : outcome unit * files * list event :=
  (Ok tt,
   mk_files (cache_file fs) (FileJson (status_of e s)),
   sp_flare_log s ++ sp_cme_log s
   ++ [WhatsApp (full_msg e s); Printed (LogSent sid (sp_risk s));
       Printed (LogCheckError OSError)]).

Definition ends_unwritten (fs : files) (s : sampling)
  : outcome unit * files * list event :=
  (Ok tt, fs,
   sp_flare_log s ++ sp_cme_log s ++ [Printed (LogCheckError OSError)]).

(** ** Concrete cycles *)

(** One entry of the NOAA planetary K index feed, with Kp index [z]. *)
Definition kp_entry (z : Z) : pyval :=
  PDict [("time_tag", PStr "2025-10-04T12:00:00"); ("kp_index", PInt z)].

(** The outside of a cycle on a day without flare or CME reports: the feed
    gives Kp index [z], the two NASA lists are empty, and the gateway
    answers [g]. *)
Definition calm (z : Z) (g : outcome string) : cycle_env := {|
  kp_reply := JsonBody (PList [kp_entry z]);
  flare_reply := JsonBody (PList []);
  cme_reply := JsonBody (PList []);
  now_iso := "2025-10-04T12:00:05+00:00";
  clean_time := "2025-10-04 12:00:05 UTC";
  sent_at := "2025-10-04T12:00:06+00:00";
  gateway := g
|}.

(** What such a cycle samples, with the risk [r] it computes. *)
Definition calm_sampling (z : Z) (r : risk) : sampling := {|
  sp_kp := mk_kp_data (PFloat (float_of_Z z)) (PStr "2025-10-04T12:00:00") (kp_entry z);
  sp_flare := None;
  sp_cme := None;
  sp_flare_log := [];
  sp_cme_log := [];
  sp_risk := r
|}.

(** The store before the program ever ran. *)
Definition fresh_store : files := mk_files FileMissing FileMissing.

(** The cache the program writes after it dispatched [sid] for Kp index
    [z] and risk [r] on such a day. *)
Definition record_of (z : Z) (r : risk) (sid : string) : list (string * pyval) :=
  [("last_kp", PFloat (float_of_Z z));
   ("last_time", PStr "2025-10-04T12:00:00");
   ("last_risk", PStr (risk_str r));
   ("last_sent_sid", PStr sid);
   ("last_sent_at", PStr "2025-10-04T12:00:06+00:00")].

(** The store after an earlier dispatch [sid] for Kp index [z] and risk
    [r]. *)
Definition store_after (z : Z) (r : risk) (sid : string) : files :=
  mk_files (FileJson (PDict (record_of z r sid)))
           (FileJson (current_status r (PFloat (float_of_Z z)) PNone PNone
                        "2025-10-04 11:55:05 UTC")).

(** ** The dashboard ([app.py]) *)

(** What a view function hands back to the web framework: a template with
    the [status] it is rendered with, a JSON body with its HTTP code, or an
    exception that it does not catch. *)
Inductive view_result : Type :=
| Rendered (template : string) (status : pyval)
| JsonResponse (code : Z) (body : pyval)
| Uncaught.

(** The status shown before the bot has written anything. *)
Definition initializing_status : pyval :=
  PDict [("risk", PStr "INITIALIZING");
         ("kp_value", PStr "N/A");
         ("flare_class", PStr "N/A");
         ("cme_speed", PStr "N/A");
         ("time", PStr "No Data")].

(** The status shown when the file cannot be loaded. *)
Definition error_status : pyval :=
  PDict [("risk", PStr "ERROR");
         ("kp_value", PStr "N/A");
         ("flare_class", PStr "N/A");
         ("cme_speed", PStr "N/A");
         ("time", PStr "Error Reading Data")].

(** [index()]: the route [/]. *)
Definition index (fs : files) : view_result :=
  Rendered "dashboard.html"
    match status_file fs with
    | FileJson status => status
    | FileMissing => initializing_status
    | FileUnreadable => error_status
    end.

(** [get_data()]: the route [/data].  Only [FileNotFoundError] is caught. *)
Definition get_data (fs : files) : view_result :=
  match status_file fs with
  | FileJson status => JsonResponse 200 status
  | FileMissing => JsonResponse 404 (PDict [("error", PStr "No data file found")])
  | FileUnreadable => Uncaught
  end.

(** ** Vocabulary for the properties of the fetches and of runs *)

(** [None], or a number: what [cme_speed > 1000] accepts after the test
    [cme_speed is not None]. *)
Definition none_or_number (v : pyval) : bool :=
  match v with
  | PNone | PBool _ | PInt _ | PFloat _ => true
  | PStr _ | PList _ | PDict _ => false
  end.

(** An entry of the CME list that the loop of [fetch_latest_cme] passes
    over: a JSON object that is not flagged most accurate, or has no speed
    (or speed 0), or whose speed is a number not above 600. *)
Definition passed_over (analysis : pyval) : Prop :=
  exists d,
    analysis = PDict d /\
    (py_truthy (stored d "isMostAccurate") && py_truthy (stored d "speed") = false
     \/ py_gt_int (stored d "speed") 600 = Ok false).

(** An entry that the loop returns. *)
Definition significant (analysis : pyval) : Prop :=
  exists d,
    analysis = PDict d /\
    py_truthy (stored d "isMostAccurate") = true /\
    py_truthy (stored d "speed") = true /\
    py_gt_int (stored d "speed") 600 = Ok true.

(** The status file is absent, or holds a record written by a cycle. *)
Definition status_from_bot (f : file) : Prop :=
  f = FileMissing \/
  exists r kp flare_class cme_speed time,
    f = FileJson (current_status r kp flare_class cme_speed time).

(** The five keys a dispatch writes to the cache. *)
Definition dispatch_keys : list string :=
  ["last_kp"; "last_time"; "last_risk"; "last_sent_sid"; "last_sent_at"].

(** The outside of a cycle on a day with one CME analysis of speed [v],
    flagged most accurate, and no flare. *)
Definition cme_entry (v : Z) : pyval :=
  PDict [("isMostAccurate", PBool true); ("speed", PInt v)].

Definition eruptive (z v : Z) (g : outcome string) : cycle_env := {|
  kp_reply := JsonBody (PList [kp_entry z]);
  flare_reply := JsonBody (PList []);
  cme_reply := JsonBody (PList [cme_entry v]);
  now_iso := "2025-10-04T12:00:05+00:00";
  clean_time := "2025-10-04 12:00:05 UTC";
  sent_at := "2025-10-04T12:00:06+00:00";
  gateway := g
|}.

Definition eruptive_sampling (z v : Z) (r : risk) : sampling := {|
  sp_kp := mk_kp_data (PFloat (float_of_Z z)) (PStr "2025-10-04T12:00:00") (kp_entry z);
  sp_flare := None;
  sp_cme := Some (mk_cme_data (PInt v) (cme_entry v));
  sp_flare_log := [];
  sp_cme_log := [];
  sp_risk := r
|}.

(** The outside of a cycle with the three replies given and a fixed
    clock. *)
Definition outside (kp flare cme : http_reply) (g : outcome string) : cycle_env := {|
  kp_reply := kp;
  flare_reply := flare;
  cme_reply := cme;
  now_iso := "2025-10-04T12:00:05+00:00";
  clean_time := "2025-10-04 12:00:05 UTC";
  sent_at := "2025-10-04T12:00:06+00:00";
  gateway := g
|}.

(** * Properties *)

(** ** The order on risks *)

Lemma risk_le_refl (a : risk) : risk_le a a.
Proof. unfold risk_le; lia. Qed.

Lemma risk_le_trans (a b c : risk) : risk_le a b -> risk_le b c -> risk_le a c.
Proof. unfold risk_le; lia. Qed.

Lemma risk_le_antisym (a b : risk) : risk_le a b -> risk_le b a -> a = b.
Proof. destruct a, b; unfold risk_le; simpl; intros; solve [reflexivity | lia]. Qed.

Lemma risk_le_total (a b : risk) : risk_le a b \/ risk_le b a.
Proof. unfold risk_le; lia. Qed.

Lemma green_least (a : risk) : risk_le green a.
Proof. unfold risk_le; simpl; lia. Qed.

Lemma risk_max_ub_l (a b : risk) : risk_le a (risk_max a b).
Proof. destruct a, b; unfold risk_le; simpl; lia. Qed.

Lemma risk_max_ub_r (a b : risk) : risk_le b (risk_max a b).
Proof. destruct a, b; unfold risk_le; simpl; lia. Qed.

Lemma risk_max_lub (a b c : risk) :
  risk_le a c -> risk_le b c -> risk_le (risk_max a b) c.
Proof. destruct a, b, c; unfold risk_le; simpl; lia. Qed.

Lemma risk_max_green_l (a : risk) : risk_max green a = a.
Proof. destruct a; reflexivity. Qed.

Lemma risk_max_green_r (a : risk) : risk_max a green = a.
Proof. destruct a; reflexivity. Qed.

Lemma risk_max_mono (a a' b b' : risk) :
  risk_le a a' -> risk_le b b' -> risk_le (risk_max a b) (risk_max a' b').
Proof.
  intros Ha Hb. apply risk_max_lub.
  - eapply risk_le_trans; [exact Ha | apply risk_max_ub_l].
  - eapply risk_le_trans; [exact Hb | apply risk_max_ub_r].
Qed.

Create HintDb risk_order.
#[local] Hint Resolve risk_le_refl green_least risk_max_ub_l risk_max_ub_r
  risk_max_lub risk_max_mono : risk_order.

(** The final [if] chain of [score_risk] is the maximum. *)
Lemma highest_wins (a b c : risk) :
  (if risk_eqb a red || risk_eqb b red || risk_eqb c red then red
   else if risk_eqb a yellow || risk_eqb b yellow || risk_eqb c yellow then yellow
   else green)
  = risk_max (risk_max a b) c.
Proof. destruct a, b, c; reflexivity. Qed.

(** ** Comparison of floats *)

Lemma f600_exact : float_of_Z 600 = f600.
Proof. reflexivity. Qed.

Lemma f1000_exact : float_of_Z 1000 = f1000.
Proof. reflexivity. Qed.

(** Above a positive finite bound, a larger float is above it too. *)
Lemma float_ge_above (m : positive) (e : Z) (x y : spec_float) :
  float_ge x (S754_finite false m e) = true ->
  float_le x y = true ->
  float_ge y (S754_finite false m e) = true.
Proof.
  unfold float_le, float_ge.
  destruct x as [sx|sx| |sx mx ex], y as [sy|sy| |sy my ey]; simpl;
    try destruct sx; try destruct sy; simpl; try discriminate; try reflexivity.
  destruct (Z.compare_spec ex e), (Z.compare_spec ey ex), (Z.compare_spec ey e);
    try discriminate; try reflexivity; try lia; subst.
  change (Pos.compare_cont Eq) with Pos.compare.
  destruct (Pos.compare_spec mx m), (Pos.compare_spec my mx), (Pos.compare_spec my m);
    try discriminate; try reflexivity; lia.
Qed.

Lemma float_gt_above (m : positive) (e : Z) (x y : spec_float) :
  float_gt x (S754_finite false m e) = true ->
  float_le x y = true ->
  float_gt y (S754_finite false m e) = true.
Proof.
  unfold float_le, float_ge, float_gt.
  destruct x as [sx|sx| |sx mx ex], y as [sy|sy| |sy my ey]; simpl;
    try destruct sx; try destruct sy; simpl; try discriminate; try reflexivity.
  destruct (Z.compare_spec ex e), (Z.compare_spec ey ex), (Z.compare_spec ey e);
    try discriminate; try reflexivity; try lia; subst.
  change (Pos.compare_cont Eq) with Pos.compare.
  destruct (Pos.compare_spec mx m), (Pos.compare_spec my mx), (Pos.compare_spec my m);
    try discriminate; try reflexivity; lia.
Qed.

(** ** Per-indicator severities grow with the reading *)

Lemma geo_severity_mono (v v' : spec_float) :
  float_le v v' = true ->
  risk_le (geo_severity (Some v)) (geo_severity (Some v')).
Proof.
  intros Hle. unfold geo_severity, f6_0, f3_0.
  destruct (float_ge v (S754_finite false _ (-50))) eqn:H6.
  - rewrite (float_ge_above _ _ _ _ H6 Hle). apply risk_le_refl.
  - destruct (float_ge v (S754_finite false _ (-51))) eqn:H3.
    + rewrite (float_ge_above _ _ _ _ H3 Hle).
      destruct (float_ge v' _); unfold risk_le; simpl; lia.
    + apply green_least.
Qed.

Lemma ejection_severity_mono (n n' : number) :
  speed_le n n' ->
  risk_le (ejection_severity (Some n)) (ejection_severity (Some n')).
Proof.
  intros Hle. unfold ejection_severity, f1000, f600.
  assert (Hup : forall z m e,
             exceeds n z (S754_finite false m e) = true ->
             exceeds n' z (S754_finite false m e) = true).
  { intros z m e Hn. destruct Hle as [a b Hab | a b Hab]; simpl in *.
    - apply Z.gtb_lt in Hn. apply Z.gtb_lt. lia.
    - eapply float_gt_above; eassumption. }
  destruct (exceeds n 1000 _) eqn:H1.
  - rewrite (Hup _ _ _ H1). apply risk_le_refl.
  - destruct (exceeds n 600 _) eqn:H2.
    + rewrite (Hup _ _ _ H2).
      destruct (exceeds n' 1000 _); unfold risk_le; simpl; lia.
    + apply green_least.
Qed.

(** ** The scorer *)

(** The steps that evaluate the scorer on readings. *)
Ltac score_steps :=
  unfold score_risk, classify, geo_severity, flare_severity, ejection_severity,
    exceeds;
  cbn [of_geo of_flare of_speed py_float py_gt_int py_eq_str obind];
  rewrite ?f600_exact, ?f1000_exact;
  repeat match goal with
         | |- context [if ?b then _ else _] =>
             lazymatch b with
             | orb _ _ => fail
             | _ => destruct b
             end; cbn [obind]
         end;
  reflexivity.

Lemma score_risk_unavailable (flare : option string) (speed : option number) :
  score_risk PNone (of_flare flare) (of_speed speed)
  = Ok (risk_max (flare_severity flare) (ejection_severity speed)).
Proof. destruct flare as [c|], speed as [[z|f]|]; score_steps. Qed.

(** On readings the scorer returns, and returns what the specification's
    [classify] says. *)
Lemma score_risk_readings (geo : option spec_float) (flare : option string)
    (speed : option number) :
  score_risk (of_geo geo) (of_flare flare) (of_speed speed)
  = Ok (classify geo flare speed).
Proof. destruct geo as [v|], flare as [c|], speed as [[z|f]|]; score_steps. Qed.

(** Outside the readings the scorer can raise: a speed given as text. *)
Lemma score_risk_rejects_text_speed :
  score_risk PNone PNone (PStr "fast") = Raise TypeError.
Proof. reflexivity. Qed.

(** C2: for every combination of readings (each possibly unavailable),
    [score_risk] returns the maximum, under green < yellow < red, of the
    three per-indicator severities: Kp >= 6.0 red, >= 3.0 yellow, else
    green (unavailable: green); flare class X red, M yellow, else green;
    speed > 1000 red, > 600 yellow, else green.  The result is an upper
    bound of the three severities and is one of them. *)
Theorem score_risk_is_max (geo : option spec_float) (flare : option string)
    (speed : option number) :
  exists r : risk,
    score_risk (of_geo geo) (of_flare flare) (of_speed speed) = Ok r /\
    r = risk_max (risk_max (geo_severity geo) (flare_severity flare))
                 (ejection_severity speed) /\
    risk_le (geo_severity geo) r /\
    risk_le (flare_severity flare) r /\
    risk_le (ejection_severity speed) r /\
    (r = geo_severity geo \/ r = flare_severity flare \/ r = ejection_severity speed).
Proof.
  exists (classify geo flare speed). split; [apply score_risk_readings|].
  unfold classify.
  destruct (geo_severity geo), (flare_severity flare), (ejection_severity speed);
    unfold risk_le; simpl; repeat split; auto; lia.
Qed.

(** C3: [score_risk] is monotonic in each argument: when the severity of
    each indicator is raised or kept, the combined result is not lowered,
    under the order green < yellow < red. *)
Theorem score_risk_monotone (geo geo' : option spec_float)
    (flare flare' : option string) (speed speed' : option number) :
  risk_le (geo_severity geo) (geo_severity geo') ->
  risk_le (flare_severity flare) (flare_severity flare') ->
  risk_le (ejection_severity speed) (ejection_severity speed') ->
  exists r r' : risk,
    score_risk (of_geo geo) (of_flare flare) (of_speed speed) = Ok r /\
    score_risk (of_geo geo') (of_flare flare') (of_speed speed') = Ok r' /\
    risk_le r r'.
Proof.
  intros Hg Hf Hs.
  exists (classify geo flare speed), (classify geo' flare' speed').
  rewrite !score_risk_readings. repeat split.
  unfold classify. auto with risk_order.
Qed.

(** Raising the Kp value alone never lowers the result. *)
Corollary score_risk_mono_kp (v v' : spec_float) (flare : option string)
    (speed : option number) :
  float_le v v' = true ->
  risk_le (classify (Some v) flare speed) (classify (Some v') flare speed).
Proof.
  intros H. unfold classify.
  auto using geo_severity_mono with risk_order.
Qed.

(** Raising the CME speed alone never lowers the result. *)
Corollary score_risk_mono_speed (geo : option spec_float) (flare : option string)
    (n n' : number) :
  speed_le n n' ->
  risk_le (classify geo flare (Some n)) (classify geo flare (Some n')).
Proof.
  intros H. unfold classify.
  auto using ejection_severity_mono with risk_order.
Qed.

(** A flare class below M scores green, M yellow and X red. *)
Lemma flare_severity_steps (c : string) :
  String.eqb c "X" = false -> String.eqb c "M" = false ->
  flare_severity (Some c) = green /\
  flare_severity (Some "M") = yellow /\
  flare_severity (Some "X") = red.
Proof. intros HX HM. unfold flare_severity. rewrite HX, HM. auto. Qed.

(** C4: [score_risk] is total on readings: it returns a severity for every
    combination, also when all three are unavailable; an unavailable
    indicator contributes green to the maximum; and
    [score_risk(None, None, None)] is green. *)
Theorem score_risk_total (geo : option spec_float) (flare : option string)
    (speed : option number) :
  (exists r : risk,
      score_risk (of_geo geo) (of_flare flare) (of_speed speed) = Ok r) /\
  score_risk PNone (of_flare flare) (of_speed speed)
    = Ok (risk_max (flare_severity flare) (ejection_severity speed)) /\
  score_risk (of_geo geo) PNone (of_speed speed)
    = Ok (risk_max (geo_severity geo) (ejection_severity speed)) /\
  score_risk (of_geo geo) (of_flare flare) PNone
    = Ok (risk_max (geo_severity geo) (flare_severity flare)) /\
  score_risk PNone PNone PNone = Ok green.
Proof.
  split; [eexists; apply score_risk_readings|].
  split; [apply score_risk_unavailable|].
  split.
  - pose proof (score_risk_readings geo None speed) as H.
    cbn [of_flare] in H. rewrite H. unfold classify.
    simpl flare_severity. rewrite risk_max_green_r. reflexivity.
  - split; [|reflexivity].
    pose proof (score_risk_readings geo flare None) as H.
    cbn [of_speed] in H. rewrite H. unfold classify.
    simpl ejection_severity. rewrite risk_max_green_r. reflexivity.
Qed.

(** ** The cycle *)

Lemma load_cache_run (fs : files) :
  exists v, load_cache fs = (Ok v, fs, []).
Proof. unfold load_cache. destruct (cache_file fs); eauto. Qed.

(** A cycle that computes a risk, and whose cache loads as a dict, ends in
    one of the three ways above, chosen by [should_send] and by the
    gateway. *)
Ltac log_norm :=
  cbn [app]; rewrite <- ?app_assoc; cbn [app]; rewrite ?app_nil_r.

Ltac cycle_step :=
  cbn -[fetch_latest_kp fetch_latest_nasa_flare fetch_latest_cme score_risk
        load_cache format_message].

Ltac cycle_end :=
  unfold write_status, send_whatsapp, bind, emit, lift, print, emit,
    ends_sent, ends_failed, ends_quiet;
  cbn [cache_file status_file];
  try match goal with |- context [gateway ?e] => destruct (gateway e) as [sid|ex] end;
  cbn [any_exception print emit py_setitem save_cache status_file cache_file];
  log_norm; reflexivity.

Lemma cycle_run (e : cycle_env) (fs : files) (s : sampling)
    (d : list (string * pyval)) :
  computes e fs s ->
  cache_loads fs d ->
  check_and_alert e fs =
    if should_send d (sp_risk s) then
      match gateway e with
      | Ok sid => ends_sent e s d sid
      | Raise ex => ends_failed e fs s ex
      end
    else ends_quiet e fs s.
Proof.
  intros (Hkp & Hfl & Hcme & Hscore) Hload.
  unfold cache_loads in Hload.
  unfold check_and_alert, check_body, try_except, bind, lift.
  rewrite Hkp, Hfl, Hcme.
  fold (kp_of s) (flare_class_of s) (cme_speed_of s).
  rewrite Hscore, Hload.
  unfold should_send, stored, py_get.
  destruct (py_truthy
              match dict_get d "last_kp" with Some x => x | None => PNone end)
    eqn:Hlast; cbn [negb orb ret]; [|cycle_end].
  destruct (py_eq_str
              match dict_get d "last_risk" with Some x => x | None => PNone end
              (risk_str (sp_risk s))) eqn:Hrisk; cbn [negb]; cycle_end.
Qed.

Lemma notifications_app (a b : list event) :
  notifications (a ++ b) = (notifications a + notifications b)%nat.
Proof.
  induction a as [|[l|body] a IH]; simpl; auto.
Qed.

(** The two guarded fetches never raise a request failure, leave the store
    alone, and only print. *)
Lemma guarded_fetch_quiet {A : Type} (body : outcome (option A)) (l : exn -> log_line)
    (fs : files) :
  exists o,
    try_except (lift body) is_request_exception
      (fun e => print (l e) ;; ret None) fs
    = (o, fs, match body with
              | Raise RequestException => [Printed (l RequestException)]
              | _ => []
              end) /\
    o <> Raise RequestException.
Proof.
  unfold try_except, lift, bind, print, emit, ret.
  destruct body as [a|[]]; cbn; eexists; split; try reflexivity; discriminate.
Qed.

Lemma computes_logs_quiet (e : cycle_env) (fs : files) (s : sampling) :
  computes e fs s ->
  notifications (sp_flare_log s) = 0%nat /\ notifications (sp_cme_log s) = 0%nat.
Proof.
  intros (_ & Hfl & Hcme & _).
  unfold fetch_latest_nasa_flare in Hfl. unfold fetch_latest_cme in Hcme.
  destruct (guarded_fetch_quiet (fetch_flare_body (flare_reply e)) LogFlareError fs)
    as (o1 & E1 & _).
  destruct (guarded_fetch_quiet (fetch_cme_body (cme_reply e)) LogCmeError fs)
    as (o2 & E2 & _).
  rewrite E1 in Hfl. rewrite E2 in Hcme.
  injection Hfl as _ <-. injection Hcme as _ <-.
  split.
  - destruct (fetch_flare_body (flare_reply e)) as [|[]]; reflexivity.
  - destruct (fetch_cme_body (cme_reply e)) as [|[]]; reflexivity.
Qed.

(** The notifier is called once when the decision is to send, and not at
    all otherwise. *)
Lemma cycle_notifications (e : cycle_env) (fs : files) (s : sampling)
    (d : list (string * pyval)) :
  computes e fs s ->
  cache_loads fs d ->
  notifications (log_of (check_and_alert e fs))
  = if should_send d (sp_risk s) then 1%nat else 0%nat.
Proof.
  intros Hc Hl. rewrite (cycle_run e fs s d Hc Hl).
  destruct (computes_logs_quiet e fs s Hc) as [Hf Hm].
  destruct (should_send d (sp_risk s)); [destruct (gateway e)|];
    unfold log_of, ends_sent, ends_failed, ends_quiet; cbn [snd];
    rewrite !notifications_app, Hf, Hm; reflexivity.
Qed.

Lemma cycle_status (e : cycle_env) (fs : files) (s : sampling)
    (d : list (string * pyval)) :
  computes e fs s ->
  cache_loads fs d ->
  status_file (store_of (check_and_alert e fs)) = FileJson (status_of e s).
Proof.
  intros Hc Hl. rewrite (cycle_run e fs s d Hc Hl).
  destruct (should_send d (sp_risk s)); [destruct (gateway e)|]; reflexivity.
Qed.



(** The cache file stays absent, unloadable or a JSON object: a cycle
    writes it only as the dict it loaded, updated. *)
Lemma cache_stays_dict (e : cycle_env) (fs : files) (s : sampling)
    (d : list (string * pyval)) :
  computes e fs s ->
  cache_loads fs d ->
  exists d', cache_loads (store_of (check_and_alert e fs)) d'.
Proof.
  intros Hc Hl. rewrite (cycle_run e fs s d Hc Hl).
  unfold cache_loads, load_cache in *.
  destruct (should_send d (sp_risk s)); [destruct (gateway e)|];
    unfold store_of, ends_sent, ends_failed, ends_quiet; cbn [fst snd cache_file].
  - eexists; reflexivity.
  - exists d. destruct (cache_file fs) as [| |v]; injection Hl as Hl; subst; reflexivity.
  - exists d. destruct (cache_file fs) as [| |v]; injection Hl as Hl; subst; reflexivity.
Qed.

Lemma cache_loads_ext (fs fs' : files) (d : list (string * pyval)) :
  cache_file fs' = cache_file fs ->
  cache_loads fs d -> cache_loads fs' d.
Proof.
  unfold cache_loads, load_cache. intros ->.
  destruct (cache_file fs); intros H; injection H as H; subst; reflexivity.
Qed.


(** ** The cache as a dict *)

Lemma dict_get_set_same (d : list (string * pyval)) (k : string) (v : pyval) :
  dict_get (dict_set d k v) k = Some v.
Proof.
  induction d as [|[k0 v0] d IH]; simpl.
  - rewrite String.eqb_refl. reflexivity.
  - destruct (String.eqb k0 k) eqn:E; simpl.
    + rewrite String.eqb_refl. reflexivity.
    + rewrite E. exact IH.
Qed.

Lemma dict_get_set_other (d : list (string * pyval)) (k k' : string) (v : pyval) :
  String.eqb k k' = false ->
  dict_get (dict_set d k v) k' = dict_get d k'.
Proof.
  intros Hk. induction d as [|[k0 v0] d IH]; simpl.
  - rewrite Hk. reflexivity.
  - destruct (String.eqb k0 k) eqn:E; simpl.
    + apply String.eqb_eq in E. subst k0. rewrite Hk. reflexivity.
    + destruct (String.eqb k0 k'); [reflexivity | exact IH].
Qed.

(** After a dispatch the cache holds the Kp and the risk of the cycle. *)
Lemma cache_after_last (e : cycle_env) (s : sampling) (sid : string)
    (d : list (string * pyval)) :
  stored (cache_after e s sid d) "last_kp" = kp_of s /\
  stored (cache_after e s sid d) "last_risk" = PStr (risk_str (sp_risk s)).
Proof.
  unfold stored, cache_after. split.
  - rewrite !dict_get_set_other by reflexivity.
    rewrite dict_get_set_same. reflexivity.
  - rewrite !dict_get_set_other by reflexivity.
    rewrite dict_get_set_same. reflexivity.
Qed.

Lemma py_eq_str_risk (r : risk) : py_eq_str (PStr (risk_str r)) (risk_str r) = true.
Proof. destruct r; reflexivity. Qed.

(** ** The fetches *)

(** A Kp reading that was obtained is a float, or [None] when the entry has
    none of the three keys. *)
Lemma fetch_latest_kp_reading (reply : http_reply) (kd : kp_data) :
  fetch_latest_kp reply = Ok (Some kd) ->
  exists geo, kd_kp kd = of_geo geo.
Proof.
  unfold fetch_latest_kp.
  destruct (http_get_json reply) as [arr|]; cbn [obind]; [|discriminate].
  destruct (negb (py_truthy arr)); [discriminate|].
  destruct (py_index0 arr) as [latest|]; cbn [obind]; [|discriminate].
  destruct (lookup_first latest _) as [kp|]; cbn [obind]; [|discriminate].
  destruct (get_or latest _ _) as [t|]; cbn [obind]; [|discriminate].
  destruct kp; cbn [obind];
    try (destruct (py_float _) as [f|]; cbn [obind]; [|discriminate]);
    intros H; injection H as <-;
    solve [exists None; reflexivity | eexists (Some _); reflexivity].
Qed.

(** A CME speed that was obtained is a number above 600. *)
Lemma first_significant_speed (analyses : list pyval) (cd : cme_data) :
  first_significant analyses = Ok (Some cd) ->
  exists n, cd_speed cd = of_speed (Some n).
Proof.
  induction analyses as [|a rest IH]; cbn [first_significant]; [discriminate|].
  destruct (py_get a "isMostAccurate" PNone) as [ima|]; cbn [obind]; [|discriminate].
  destruct (py_get a "speed" PNone) as [speed|]; cbn [obind]; [|discriminate].
  destruct (py_truthy ima && py_truthy speed) eqn:Ht; cbn [obind].
  - destruct (py_gt_int speed 600) as [[|]|] eqn:Hgt; cbn [obind];
      [|exact IH|discriminate].
    intros H; injection H as <-. cbn [cd_speed].
    destruct speed; try discriminate.
    + destruct b; discriminate.
    + exists (NInt z); reflexivity.
    + exists (NFloat f); reflexivity.
  - exact IH.
Qed.

Lemma fetch_latest_cme_speed (reply : http_reply) (fs fs' : files)
    (cdo : option cme_data) (log : list event) :
  fetch_latest_cme reply fs = (Ok cdo, fs', log) ->
  exists speed,
    match cdo with Some cd => cd_speed cd | None => PNone end = of_speed speed.
Proof.
  unfold fetch_latest_cme, try_except, lift, fetch_cme_body.
  destruct cdo as [cd|]; [|exists None; reflexivity].
  destruct (http_get_json reply) as [v|ex]; cbn [obind].
  - destruct (negb (py_truthy v)); [discriminate|].
    destruct (py_iter v) as [items|ex]; cbn [obind].
    + destruct (first_significant items) as [o|ex] eqn:E.
      * intros H; injection H as -> _ _.
        destruct (first_significant_speed items cd E) as [n Hn].
        exists (Some n). exact Hn.
      * destruct ex; cbn; discriminate.
    + destruct ex; cbn; discriminate.
  - destruct ex; cbn; discriminate.
Qed.

(** The scorer returns on every Kp reading and speed, whatever value stands
    for the flare class. *)
Lemma score_risk_returns (geo : option spec_float) (flare_class : pyval)
    (speed : option number) :
  exists r, score_risk (of_geo geo) flare_class (of_speed speed) = Ok r.
Proof.
  unfold score_risk.
  destruct geo as [v|], speed as [[z|f]|];
    cbn [of_geo of_speed py_float py_gt_int obind];
    repeat match goal with
           | |- context [if ?b then _ else _] => destruct b; cbn [obind]
           end;
    eexists; reflexivity.
Qed.

(** Scoring never stops a cycle: once the three fetches have returned, the
    risk is computed. *)
Lemma fetched_readings_score (e : cycle_env) (fs : files) (kd : kp_data)
    (fdo : option flare_data) (cdo : option cme_data) (lf lc : list event) :
  fetch_latest_kp (kp_reply e) = Ok (Some kd) ->
  fetch_latest_nasa_flare (flare_reply e) fs = (Ok fdo, fs, lf) ->
  fetch_latest_cme (cme_reply e) fs = (Ok cdo, fs, lc) ->
  exists r, computes e fs (mk_sampling kd fdo cdo lf lc r).
Proof.
  intros Hkp Hfl Hcme.
  destruct (fetch_latest_kp_reading _ _ Hkp) as [geo Hgeo].
  destruct (fetch_latest_cme_speed _ _ _ _ _ Hcme) as [speed Hspeed].
  destruct (score_risk_returns geo
              (match fdo with Some fd => fd_class fd | None => PNone end) speed)
    as [r Hr].
  exists r. unfold computes, kp_of, flare_class_of, cme_speed_of.
  cbn [sp_kp sp_flare sp_cme sp_flare_log sp_cme_log sp_risk].
  rewrite Hgeo, Hspeed. auto.
Qed.

(** ** The cache file stays loadable as a dict *)

Lemma fetch_flare_run (reply : http_reply) (fs : files) :
  exists o l, fetch_latest_nasa_flare reply fs = (o, fs, l).
Proof.
  destruct (guarded_fetch_quiet (fetch_flare_body reply) LogFlareError fs)
    as (o & E & _).
  exists o. eexists. exact E.
Qed.

Lemma fetch_cme_run (reply : http_reply) (fs : files) :
  exists o l, fetch_latest_cme reply fs = (o, fs, l).
Proof.
  destruct (guarded_fetch_quiet (fetch_cme_body reply) LogCmeError fs)
    as (o & E & _).
  exists o. eexists. exact E.
Qed.

(** Whatever a cycle meets, it leaves the cache file as it was or writes a
    JSON object to it. *)
Lemma cache_written_as_dict (e : cycle_env) (fs : files) :
  cache_file (store_of (check_and_alert e fs)) = cache_file fs \/
  exists d, cache_file (store_of (check_and_alert e fs)) = FileJson (PDict d).
Proof.
  destruct (fetch_flare_run (flare_reply e) fs) as (o1 & l1 & E1).
  destruct (fetch_cme_run (cme_reply e) fs) as (o2 & l2 & E2).
  destruct (load_cache_run fs) as [v Hv].
  unfold check_and_alert, check_body, try_except, bind, lift, store_of,
    write_status, send_whatsapp, ret, print, emit, bind, lift, emit.
  destruct (fetch_latest_kp (kp_reply e)) as [[kd|]|ex]; [rewrite E1| |];
    cycle_step; auto.
  destruct o1 as [fdo|ex]; [rewrite E2|]; cycle_step; auto.
  destruct o2 as [cdo|ex]; cycle_step; auto.
  destruct (score_risk _ _ _) as [r|ex]; [rewrite Hv|]; cycle_step; auto.
  destruct v as [| | | | | |d]; cycle_step; auto.
  destruct (negb (py_truthy _)); cycle_step.
  - destruct (gateway e); cycle_step; eauto.
  - destruct (negb (py_eq_str _ _)); cycle_step; auto.
    destruct (gateway e); cycle_step; eauto.
Qed.

(** So a cache that loads as a dict loads as a dict after any cycle. *)
Lemma cache_loads_preserved (e : cycle_env) (fs : files) :
  (exists d, cache_loads fs d) ->
  exists d', cache_loads (store_of (check_and_alert e fs)) d'.
Proof.
  intros [d Hd].
  destruct (cache_written_as_dict e fs) as [H | [d' H]].
  - exists d. eapply cache_loads_ext; eassumption.
  - exists d'. unfold cache_loads, load_cache. rewrite H. reflexivity.
Qed.

(** ** The claims about the cycle *)


(** The decision at a recorded Kp of 0.0: two consecutive cycles compute
    green, the cache holds a record for green, written by the program in a
    first cycle that read Kp 0, and the notifier is called in both. *)
Lemma repeat_alert_at_kp_zero :
  let fs1 := store_of (check_and_alert (calm 0 (Ok "SM1")) fresh_store) in
  cache_loads fs1 (record_of 0 green "SM1") /\
  stored (record_of 0 green "SM1") "last_risk" = PStr (risk_str green) /\
  computes (calm 0 (Ok "SM2")) fs1 (calm_sampling 0 green) /\
  notifications (log_of (check_and_alert (calm 0 (Ok "SM2")) fs1)) = 1%nat /\
  notifications (snd (run_cycles [calm 0 (Ok "SM2"); calm 0 (Ok "SM3")] fs1)) = 2%nat.
Proof. repeat split. Qed.

(** C5 (the code departs from it): [fetch_latest_kp] raises to its caller
    on a connection failure, a timeout, an HTTP error status, a body that
    is not JSON, and a payload of the wrong shape, where the two other
    fetches return [None] on a request failure. *)
Theorem fetch_latest_kp_raises :
  fetch_latest_kp ConnectionFailed = Raise RequestException /\
  fetch_latest_kp TimedOut = Raise RequestException /\
  fetch_latest_kp BadStatus = Raise RequestException /\
  fetch_latest_kp BodyNotJson = Raise RequestException /\
  fetch_latest_kp (JsonBody (PDict [("error", PStr "unavailable")])) = Raise KeyError /\
  (forall fs, fetch_latest_nasa_flare TimedOut fs
              = (Ok None, fs, [Printed (LogFlareError RequestException)])) /\
  (forall fs, fetch_latest_cme TimedOut fs
              = (Ok None, fs, [Printed (LogCmeError RequestException)])).
Proof. repeat split. Qed.

(** C6, as amended: when the dispatch fails, the cycle has written the new
    readings and severity to the status record, and leaves the cache used
    for deduplication as it was, so neither the severity nor the dispatch
    id and time advance there; a next cycle that computes the same
    severity calls the notifier again. *)
Theorem failed_dispatch_is_retried (e e' : cycle_env) (fs : files)
    (s s' : sampling) (d : list (string * pyval)) (ex : exn) :
  computes e fs s ->
  cache_loads fs d ->
  should_send d (sp_risk s) = true ->
  gateway e = Raise ex ->
  computes e' (store_of (check_and_alert e fs)) s' ->
  sp_risk s' = sp_risk s ->
  status_file (store_of (check_and_alert e fs)) = FileJson (status_of e s) /\
  cache_file (store_of (check_and_alert e fs)) = cache_file fs /\
  notifications (log_of (check_and_alert e fs)) = 1%nat /\
  notifications (log_of (check_and_alert e' (store_of (check_and_alert e fs)))) = 1%nat.
Proof.
  intros Hc Hl Hs Hg Hc' Hr.
  assert (Hcache : cache_file (store_of (check_and_alert e fs)) = cache_file fs).
  { rewrite (cycle_run e fs s d Hc Hl), Hs, Hg. reflexivity. }
  split; [eapply cycle_status; eassumption|].
  split; [exact Hcache|].
  split.
  - rewrite (cycle_notifications e fs s d Hc Hl), Hs. reflexivity.
  - rewrite (cycle_notifications e' _ s' d Hc' (cache_loads_ext _ _ _ Hcache Hl)).
    rewrite Hr, Hs. reflexivity.
Qed.

(** A cycle that computes a severity from a cache that loads as a dict
    writes the readings, the severity and the cycle's timestamp to the
    status record, whether or not a notification fired; a green result
    equal to the cached severity, with a cached Kp that is truthy, sends
    nothing and the record is still written. *)
Lemma status_written_when_cache_is_dict (e : cycle_env) (fs : files) (s : sampling)
    (d : list (string * pyval)) :
  computes e fs s ->
  cache_loads fs d ->
  status_file (store_of (check_and_alert e fs))
  = FileJson (PDict [("risk", PStr (risk_str (sp_risk s)));
                     ("kp_value", kp_of s);
                     ("flare_class", flare_class_of s);
                     ("cme_speed", cme_speed_of s);
                     ("time", PStr (clean_time e))]) /\
  (sp_risk s = green ->
   stored d "last_risk" = PStr (risk_str green) ->
   py_truthy (stored d "last_kp") = true ->
   notifications (log_of (check_and_alert e fs)) = 0%nat).
Proof.
  intros Hc Hl. split; [exact (cycle_status e fs s d Hc Hl)|].
  intros Hg Hr Hk. rewrite (cycle_notifications e fs s d Hc Hl).
  unfold should_send. rewrite Hk, Hr, Hg. reflexivity.
Qed.


(** C9, as amended: every yellow message has the title, the reading line
    and the navigation advisory, followed by the flare-risk note if and
    only if the flare class is M or the CME speed is truthy (present and
    not zero). *)
Theorem yellow_message_lines (kp_val time_str flare_class cme_speed : pyval)
    (lang : string) :
  exists line2 : text,
    body_lines yellow kp_val time_str flare_class cme_speed lang
    = [[Lit (title_yellow (PHRASES lang))]; line2;
       [Lit (gps_advice (PHRASES lang))]]
      ++ (if py_eq_str flare_class "M" || py_truthy cme_speed
          then [[Lit (flare_risk_note (PHRASES lang))]]
          else []).
Proof.
  unfold body_lines. eexists.
  destruct (py_eq_str flare_class "M" || py_truthy cme_speed); reflexivity.
Qed.


(** * Further properties of the program *)

(** ** Every cycle *)

(** What a guarded fetch returns and prints does not depend on the store,
    which it hands back as it got it. *)
Lemma guarded_fetch_any_store {A : Type} (body : outcome (option A))
    (l : exn -> log_line) :
  exists o log,
    notifications log = 0%nat /\
    forall fs,
      try_except (lift body) is_request_exception
        (fun e => print (l e) ;; ret None) fs = (o, fs, log).
Proof.
  unfold try_except, lift, bind, print, emit, ret.
  destruct body as [a|[]]; cbn; do 2 eexists; split;
    try (intros fs; reflexivity); reflexivity.
Qed.

Lemma fetch_flare_any_store (reply : http_reply) :
  exists o log,
    notifications log = 0%nat /\
    forall fs, fetch_latest_nasa_flare reply fs = (o, fs, log).
Proof. apply guarded_fetch_any_store. Qed.

Lemma fetch_cme_any_store (reply : http_reply) :
  exists o log,
    notifications log = 0%nat /\
    forall fs, fetch_latest_cme reply fs = (o, fs, log).
Proof. apply guarded_fetch_any_store. Qed.

(** The fetches read no file: what a cycle samples from one store it
    samples from any other. *)
Lemma computes_any_store (e : cycle_env) (fs fs' : files) (s : sampling) :
  computes e fs s -> computes e fs' s.
Proof.
  intros (Hkp & Hfl & Hcme & Hr).
  destruct (fetch_flare_any_store (flare_reply e)) as (o1 & l1 & _ & E1).
  destruct (fetch_cme_any_store (cme_reply e)) as (o2 & l2 & _ & E2).
  rewrite E1 in Hfl. rewrite E2 in Hcme.
  injection Hfl as -> ->. injection Hcme as -> ->.
  unfold computes. rewrite E1, E2. auto.
Qed.

(** A cycle either computes a risk from a cache that loads as a dict, or
    stops early: then it leaves both files as they were and does not call
    the notifier. *)
Lemma cycle_cases (e : cycle_env) (fs : files) :
  (exists s d, computes e fs s /\ cache_loads fs d) \/
  (store_of (check_and_alert e fs) = fs /\
   notifications (log_of (check_and_alert e fs)) = 0%nat).
Proof.
  destruct (fetch_flare_any_store (flare_reply e)) as (o1 & l1 & Q1 & E1).
  destruct (fetch_cme_any_store (cme_reply e)) as (o2 & l2 & Q2 & E2).
  destruct (load_cache_run fs) as [v Hv].
  destruct (fetch_latest_kp (kp_reply e)) as [[kd|]|ex] eqn:Hkp.
  2,3: right; unfold check_and_alert, check_body, try_except, bind, lift,
         store_of, log_of; rewrite Hkp; split; reflexivity.
  destruct o1 as [fdo|ex].
  2: { right; unfold check_and_alert, check_body, try_except, bind, lift,
         store_of, log_of; rewrite Hkp, E1; cycle_step.
       rewrite !notifications_app, Q1. split; reflexivity. }
  destruct o2 as [cdo|ex].
  2: { right; unfold check_and_alert, check_body, try_except, bind, lift,
         store_of, log_of; rewrite Hkp, E1, E2; cycle_step.
       rewrite !notifications_app, Q1, Q2. split; reflexivity. }
  destruct (score_risk (kd_kp kd)
              (match fdo with Some fd => fd_class fd | None => PNone end)
              (match cdo with Some cd => cd_speed cd | None => PNone end))
    as [r|ex] eqn:Hr.
  2: { right; unfold check_and_alert, check_body, try_except, bind, lift,
         store_of, log_of; rewrite Hkp, E1, E2, Hr; cycle_step.
       rewrite !notifications_app, Q1, Q2. split; reflexivity. }
  assert (Hd : (exists d, v = PDict d) \/ py_get v "last_kp" PNone = Raise AttributeError).
  { destruct v; eauto. }
  destruct Hd as [[d ->] | Hget].
  - left. exists (mk_sampling kd fdo cdo l1 l2 r), d.
    unfold computes. cbn [sp_kp sp_flare sp_cme sp_flare_log sp_cme_log sp_risk].
    rewrite E1, E2. auto.
  - right; unfold check_and_alert, check_body, try_except, bind, lift,
      store_of, log_of; rewrite Hkp, E1, E2, Hr, Hv, Hget; cycle_step.
    rewrite !notifications_app, Q1, Q2. split; reflexivity.
Qed.

(** X1: a cycle never raises to the scheduler, whatever the providers, the
    gateway and the files do, and it calls the notifier at most once. *)
Theorem cycle_returns_and_sends_at_most_once (e : cycle_env) (fs : files) :
  fst (fst (check_and_alert e fs)) = Ok tt /\
  (notifications (log_of (check_and_alert e fs)) <= 1)%nat.
Proof.
  split.
  - unfold check_and_alert, try_except.
    destruct (check_body e fs) as [[[[]|ex] fs1] l1]; reflexivity.
  - destruct (cycle_cases e fs) as [(s & d & Hc & Hl) | [_ H0]].
    + rewrite (cycle_notifications e fs s d Hc Hl).
      destruct (should_send d (sp_risk s)); lia.
    + rewrite H0. lia.
Qed.

(** X2: a cycle either computes a risk and writes the status record of
    that risk, or leaves both files exactly as they were and sends
    nothing. *)
Theorem cycle_all_or_nothing (e : cycle_env) (fs : files) :
  (exists s, computes e fs s /\
             status_file (store_of (check_and_alert e fs)) = FileJson (status_of e s)) \/
  (store_of (check_and_alert e fs) = fs /\
   notifications (log_of (check_and_alert e fs)) = 0%nat).
Proof.
  destruct (cycle_cases e fs) as [(s & d & Hc & Hl) | H]; [left | right; exact H].
  exists s. split; [exact Hc | exact (cycle_status e fs s d Hc Hl)].
Qed.

(** X3: the cache file changes only in a cycle whose decision was to send
    and whose gateway answered with a dispatch id; the new cache is the old
    dict updated with that dispatch. *)
Theorem cache_changes_only_after_send (e : cycle_env) (fs : files) :
  cache_file (store_of (check_and_alert e fs)) <> cache_file fs ->
  exists s d sid,
    computes e fs s /\
    cache_loads fs d /\
    should_send d (sp_risk s) = true /\
    gateway e = Ok sid /\
    cache_file (store_of (check_and_alert e fs))
    = FileJson (PDict (cache_after e s sid d)) /\
    notifications (log_of (check_and_alert e fs)) = 1%nat.
Proof.
  intros Hch.
  destruct (cycle_cases e fs) as [(s & d & Hc & Hl) | [Hsame _]].
  2: { rewrite Hsame in Hch. contradiction. }
  pose proof (cycle_run e fs s d Hc Hl) as Hrun.
  pose proof (cycle_notifications e fs s d Hc Hl) as Hn.
  destruct (should_send d (sp_risk s)) eqn:Hs.
  - destruct (gateway e) as [sid|ex] eqn:Hg.
    + exists s, d, sid.
      split; [exact Hc|]. split; [exact Hl|]. split; [exact Hs|].
      split; [reflexivity|]. split; [|exact Hn].
      rewrite Hrun. reflexivity.
    + rewrite Hrun in Hch. exfalso. apply Hch. reflexivity.
  - rewrite Hrun in Hch. exfalso. apply Hch. reflexivity.
Qed.

(** ** The cache after a dispatch *)

Lemma not_in_cons_eqb (k k' : string) (l : list string) :
  ~ In k (k' :: l) -> String.eqb k' k = false /\ ~ In k l.
Proof.
  intros H. split.
  - apply String.eqb_neq. intros ->. apply H. left. reflexivity.
  - intros Hin. apply H. right. exact Hin.
Qed.

(** ** Runs of the scheduler *)

Lemma run_cycles_cons_store (e : cycle_env) (es : list cycle_env) (fs : files) :
  fst (run_cycles (e :: es) fs)
  = fst (run_cycles es (store_of (check_and_alert e fs))).
Proof.
  cbn [run_cycles]. unfold store_of.
  destruct (check_and_alert e fs) as [[o fs1] l1]. cbn [fst snd].
  destruct (run_cycles es fs1). reflexivity.
Qed.

Lemma run_cycles_cons_log (e : cycle_env) (es : list cycle_env) (fs : files) :
  snd (run_cycles (e :: es) fs)
  = log_of (check_and_alert e fs)
    ++ snd (run_cycles es (store_of (check_and_alert e fs))).
Proof.
  cbn [run_cycles]. unfold store_of, log_of.
  destruct (check_and_alert e fs) as [[o fs1] l1]. cbn [fst snd].
  destruct (run_cycles es fs1). reflexivity.
Qed.

Lemma steady_run (es : list cycle_env) (fs : files)
    (d : list (string * pyval)) (r : risk) :
  cache_loads fs d ->
  py_truthy (stored d "last_kp") = true ->
  stored d "last_risk" = PStr (risk_str r) ->
  Forall (fun e => exists s, computes e fs s /\ sp_risk s = r) es ->
  notifications (snd (run_cycles es fs)) = 0%nat /\
  cache_file (fst (run_cycles es fs)) = cache_file fs.
Proof.
  intros Hl Hk Hr Hall. revert fs Hl Hall.
  induction es as [|e es IH]; intros fs Hl Hall; [split; reflexivity|].
  inversion Hall as [|e' es' (s & Hc & Hs) Hrest]; subst e' es'.
  assert (Hquiet : should_send d (sp_risk s) = false).
  { unfold should_send. rewrite Hk, Hr, Hs, py_eq_str_risk. reflexivity. }
  assert (Hcache : cache_file (store_of (check_and_alert e fs)) = cache_file fs).
  { rewrite (cycle_run e fs s d Hc Hl), Hquiet. reflexivity. }
  destruct (IH (store_of (check_and_alert e fs))) as [IHn IHc].
  - eapply cache_loads_ext; eassumption.
  - eapply Forall_impl; [|exact Hrest].
    intros e' (s' & Hc' & Hs'). exists s'. split; [|exact Hs'].
    eapply computes_any_store; exact Hc'.
  - rewrite run_cycles_cons_log, run_cycles_cons_store, notifications_app.
    rewrite (cycle_notifications e fs s d Hc Hl), Hquiet, IHn, IHc.
    split; [reflexivity | exact Hcache].
Qed.

(** X5: while every cycle computes the severity that the cache records,
    with a recorded Kp that is truthy, no cycle of a run calls the
    notifier, however many cycles there are and however the readings
    vary, and the cache file is left as it was. *)
Theorem steady_severity_is_silent (es : list cycle_env) (fs : files)
    (d : list (string * pyval)) (r : risk) :
  cache_loads fs d ->
  py_truthy (stored d "last_kp") = true ->
  stored d "last_risk" = PStr (risk_str r) ->
  Forall (fun e => exists s, computes e fs s /\ sp_risk s = r) es ->
  notifications (snd (run_cycles es fs)) = 0%nat /\
  cache_file (fst (run_cycles es fs)) = cache_file fs.
Proof. exact (steady_run es fs d r). Qed.

Lemma status_from_bot_step (e : cycle_env) (fs : files) :
  status_from_bot (status_file fs) ->
  status_from_bot (status_file (store_of (check_and_alert e fs))).
Proof.
  intros H.
  destruct (cycle_cases e fs) as [(s & d & Hc & Hl) | [Hsame _]].
  - rewrite (cycle_status e fs s d Hc Hl). right.
    unfold status_of. do 5 eexists. reflexivity.
  - rewrite Hsame. exact H.
Qed.

(** X6: the two files stay well formed over any run: a cache file that
    loads as a dict still does after every cycle, so no cycle of the run
    fails on reading it, and the status file is absent or holds a record
    written by a cycle. *)
Theorem run_keeps_files_well_formed (es : list cycle_env) (fs : files) :
  (exists d, cache_loads fs d) ->
  status_from_bot (status_file fs) ->
  (exists d', cache_loads (fst (run_cycles es fs)) d') /\
  status_from_bot (status_file (fst (run_cycles es fs))).
Proof.
  revert fs. induction es as [|e es IH]; intros fs Hc Hs; [split; assumption|].
  rewrite run_cycles_cons_store. apply IH.
  - apply cache_loads_preserved. exact Hc.
  - apply status_from_bot_step. exact Hs.
Qed.

(** X7: a reply of the Kp feed that is empty (an empty list, or any falsy
    JSON value) makes the fetch return [None]; the cycle prints that there
    is no Kp data, reads no other provider, writes no file and sends
    nothing. *)
Theorem no_kp_data_cycle (e : cycle_env) (fs : files) (v : pyval) :
  kp_reply e = JsonBody v ->
  py_truthy v = false ->
  fetch_latest_kp (kp_reply e) = Ok None /\
  check_and_alert e fs = (Ok tt, fs, [Printed LogNoKp]).
Proof.
  intros Hreply Hfalsy.
  assert (Hkp : fetch_latest_kp (kp_reply e) = Ok None).
  { unfold fetch_latest_kp. rewrite Hreply. cbn [http_get_json obind].
    rewrite Hfalsy. reflexivity. }
  split; [exact Hkp|].
  unfold check_and_alert, check_body, try_except, bind, lift.
  rewrite Hkp. reflexivity.
Qed.

(** ** The dashboard *)

(** X9: as long as only the bot writes the status file, over any run the
    page [/] shows the placeholder or a record written by a cycle, never
    the error status, and [/data] answers 404 or 200 and never lets an
    exception escape. *)
Theorem dashboard_never_fails_after_run (es : list cycle_env) (fs : files) :
  status_from_bot (status_file fs) ->
  (index (fst (run_cycles es fs)) = Rendered "dashboard.html" initializing_status /\
   get_data (fst (run_cycles es fs))
   = JsonResponse 404 (PDict [("error", PStr "No data file found")])) \/
  (exists r kp flare_class cme_speed time,
     index (fst (run_cycles es fs))
     = Rendered "dashboard.html" (current_status r kp flare_class cme_speed time) /\
     get_data (fst (run_cycles es fs))
     = JsonResponse 200 (current_status r kp flare_class cme_speed time)).
Proof.
  intros Hs.
  assert (H : status_from_bot (status_file (fst (run_cycles es fs)))).
  { revert fs Hs. induction es as [|e es IH]; intros fs Hs; [exact Hs|].
    rewrite run_cycles_cons_store. apply IH.
    apply status_from_bot_step. exact Hs. }
  unfold index, get_data.
  destruct H as [-> | (r & kp & fc & cs & t & ->)].
  - left. split; reflexivity.
  - right. exists r, kp, fc, cs, t. split; reflexivity.
Qed.

(** ** The Kp fetch *)

Lemma get_or_dict (d : list (string * pyval)) (k : string) (ks : list string) :
  exists t, get_or (PDict d) k ks = Ok t.
Proof.
  revert k. induction ks as [|k' ks IH]; intros k; cbn [get_or py_get obind].
  - eexists; reflexivity.
  - destruct (py_truthy _); [eexists; reflexivity | apply IH].
Qed.

Lemma get_or_first (d : list (string * pyval)) (k : string) (ks : list string) :
  py_truthy (stored d k) = true -> get_or (PDict d) k ks = Ok (stored d k).
Proof.
  intros H. destruct ks; cbn [get_or py_get obind]; fold (stored d k);
    [|rewrite H]; reflexivity.
Qed.

(** X10: the Kp fetch reads the first entry of the feed only, and in it
    the key ["kp_index"] decides when it is present: its value is
    converted with [float], whose exception reaches the caller, and a null
    there gives no Kp even when ["kp"] or ["Kp"] hold one.  The time is
    ["time_tag"] when that is truthy. *)
Theorem kp_index_decides (d : list (string * pyval)) (rest : list pyval)
    (v : pyval) :
  dict_get d "kp_index" = Some v ->
  exists t,
    (py_truthy (stored d "time_tag") = true -> t = stored d "time_tag") /\
    fetch_latest_kp (JsonBody (PList (PDict d :: rest)))
    = match v with
      | PNone => Ok (Some (mk_kp_data PNone t (PDict d)))
      | _ =>
          match py_float v with
          | Ok f => Ok (Some (mk_kp_data (PFloat f) t (PDict d)))
          | Raise ex => Raise ex
          end
      end.
Proof.
  intros Hv.
  destruct (get_or_dict d "time_tag" ["date_time"; "timestamp"; "date"]) as [t Ht].
  exists t. split.
  - intros Htag. rewrite (get_or_first _ _ _ Htag) in Ht. congruence.
  - unfold fetch_latest_kp.
    cbn [http_get_json py_truthy negb py_index0 obind lookup_first py_contains_str
           py_getitem_str].
    rewrite Hv. cbn [obind]. rewrite Ht. cbn [obind].
    destruct v; cbn [obind]; try reflexivity;
      destruct (py_float _); reflexivity.
Qed.

(** ** The CME fetch *)

Lemma first_significant_passes (pre rest : list pyval) :
  Forall passed_over pre ->
  first_significant (pre ++ rest) = first_significant rest.
Proof.
  induction 1 as [|a pre (d & -> & Hskip) _ IH]; [reflexivity|].
  cbn [app first_significant py_get obind]. fold (stored d "isMostAccurate").
  fold (stored d "speed").
  destruct Hskip as [Hfalsy | Hlow].
  - rewrite Hfalsy. cbn [obind]. exact IH.
  - destruct (py_truthy _ && py_truthy _); [rewrite Hlow|]; cbn [obind]; exact IH.
Qed.

(** X11: the CME fetch returns the first analysis, in list order, that is
    flagged most accurate with a speed above 600, with that speed; entries
    not flagged, without speed, or at 600 or below are passed over, and a
    list of such entries only gives [None].  Nothing is printed and no
    file is touched. *)
Theorem cme_fetch_selects_first_significant (pre post : list pyval)
    (a : pyval) (fs : files) :
  Forall passed_over pre ->
  fetch_latest_cme (JsonBody (PList pre)) fs = (Ok None, fs, []) /\
  (forall d, a = PDict d -> significant a ->
     fetch_latest_cme (JsonBody (PList (pre ++ a :: post))) fs
     = (Ok (Some (mk_cme_data (stored d "speed") a)), fs, [])).
Proof.
  intros Hpre. split.
  - unfold fetch_latest_cme, try_except, lift, fetch_cme_body.
    cbn [http_get_json obind].
    destruct pre as [|p pre']; [reflexivity|].
    cbn [py_truthy negb py_iter obind].
    rewrite <- (app_nil_r (p :: pre')), (first_significant_passes _ [] Hpre).
    reflexivity.
  - intros d -> (d' & Hd & Hima & Hsp & Hgt). injection Hd as <-.
    unfold fetch_latest_cme, try_except, lift, fetch_cme_body.
    cbn [http_get_json obind].
    assert (Htruthy : py_truthy (PList (pre ++ PDict d :: post)) = true).
    { destruct pre; reflexivity. }
    rewrite Htruthy. cbn [negb py_iter obind].
    rewrite (first_significant_passes _ _ Hpre).
    cbn [first_significant py_get obind]. fold (stored d "isMostAccurate").
    fold (stored d "speed"). rewrite Hima, Hsp. cbn [andb].
    rewrite Hgt. reflexivity.
Qed.

Lemma first_significant_hit (analyses : list pyval) (cd : cme_data) :
  first_significant analyses = Ok (Some cd) ->
  py_truthy (cd_speed cd) = true /\ py_gt_int (cd_speed cd) 600 = Ok true.
Proof.
  induction analyses as [|a rest IH]; cbn [first_significant]; [discriminate|].
  destruct (py_get a "isMostAccurate" PNone) as [ima|]; cbn [obind]; [|discriminate].
  destruct (py_get a "speed" PNone) as [speed|]; cbn [obind]; [|discriminate].
  destruct (py_truthy ima) eqn:Hi, (py_truthy speed) eqn:Hs; cbn [andb obind];
    try exact IH.
  destruct (py_gt_int speed 600) as [[|]|] eqn:Hgt; cbn [obind];
    [|exact IH|discriminate].
  intros H; injection H as <-. cbn [cd_speed]. auto.
Qed.

Lemma fetch_latest_cme_hit (reply : http_reply) (fs fs' : files)
    (cd : cme_data) (log : list event) :
  fetch_latest_cme reply fs = (Ok (Some cd), fs', log) ->
  py_truthy (cd_speed cd) = true /\ py_gt_int (cd_speed cd) 600 = Ok true.
Proof.
  unfold fetch_latest_cme, try_except, lift, fetch_cme_body.
  destruct (http_get_json reply) as [v|ex]; cbn [obind].
  - destruct (negb (py_truthy v)); [discriminate|].
    destruct (py_iter v) as [items|ex]; cbn [obind].
    + destruct (first_significant items) as [o|ex] eqn:E.
      * intros H; injection H as -> _ _.
        exact (first_significant_hit items cd E).
      * destruct ex; cbn; discriminate.
    + destruct ex; cbn; discriminate.
  - destruct ex; cbn; discriminate.
Qed.

Lemma score_risk_above_600 (kp flare_class cme_speed : pyval) (r : risk) :
  py_gt_int cme_speed 600 = Ok true ->
  score_risk kp flare_class cme_speed = Ok r ->
  r <> green.
Proof.
  intros Hgt Hs. unfold score_risk in Hs.
  destruct (match kp with PNone => Ok green | _ => _ end) as [kr|]; cbn [obind] in Hs;
    [|discriminate].
  destruct cme_speed; try discriminate Hgt; cbn [obind] in Hs;
    rewrite Hgt in Hs;
    destruct (py_gt_int _ 1000) as [[|]|]; cbn [obind] in Hs; try discriminate;
    destruct kr, (py_eq_str flare_class "X"), (py_eq_str flare_class "M");
    cbn in Hs; injection Hs as <-; discriminate.
Qed.

(** X12: a CME that the fetch reports never leaves the alert green: the
    floor of the fetch, speed above 600, is the yellow threshold of the
    scorer; and the message of the cycle, in each language, carries the
    flare-risk note. *)
Theorem reported_cme_raises_alert (e : cycle_env) (fs : files) (s : sampling)
    (cd : cme_data) (lang : string) :
  computes e fs s ->
  sp_cme s = Some cd ->
  sp_risk s <> green /\
  In [Lit (flare_risk_note (PHRASES lang))]
     (body_lines (sp_risk s) (kp_of s) (time_of e s) (flare_class_of s)
        (cme_speed_of s) lang).
Proof.
  intros (_ & _ & Hcme & Hr) Hcd.
  rewrite Hcd in Hcme.
  destruct (fetch_latest_cme_hit _ _ _ _ _ Hcme) as [Htruthy Hgt].
  assert (Hspeed : cme_speed_of s = cd_speed cd).
  { unfold cme_speed_of. rewrite Hcd. reflexivity. }
  rewrite Hspeed in *.
  pose proof (score_risk_above_600 _ _ _ _ Hgt Hr) as Hne.
  split; [exact Hne|].
  unfold body_lines. rewrite Htruthy, orb_true_r.
  destruct (sp_risk s); [contradiction| |];
    rewrite !in_app_iff; right; cbn [In]; auto.
Qed.

(** ** The flare fetch *)

(** X13: the flare fetch reads the first entry of the list only; the class
    is the first character of its ["classType"], and ["B"] when the entry
    has no such key. *)
Theorem flare_class_is_first_character (d : list (string * pyval))
    (rest : list pyval) :
  (dict_get d "classType" = None ->
   fetch_flare_body (JsonBody (PList (PDict d :: rest)))
   = Ok (Some (mk_flare_data (PStr "B") (stored d "beginTime") (PDict d)))) /\
  (forall c tail,
     dict_get d "classType" = Some (PStr (String c tail)) ->
     continuation_bytes tail = "" ->
     fetch_flare_body (JsonBody (PList (PDict d :: rest)))
     = Ok (Some (mk_flare_data (PStr (String c "")) (stored d "beginTime") (PDict d)))).
Proof.
  split.
  - intros H. unfold fetch_flare_body, stored.
    cbn [http_get_json py_truthy negb py_index0 py_get obind].
    rewrite H. reflexivity.
  - intros c tail H Hc. unfold fetch_flare_body, stored.
    cbn [http_get_json py_truthy negb py_index0 py_get obind].
    rewrite H. cbn [py_index0 obind]. rewrite Hc. reflexivity.
Qed.

(** X14: a flare entry whose ["classType"] cannot be indexed (null, an
    empty string, a number) stops the whole cycle: the exception is not a
    request failure, so the fetch does not catch it, and the cycle ends
    with the error printed, no file written and nothing sent, whatever the
    Kp reading was. *)
Theorem malformed_flare_stops_cycle (e : cycle_env) (fs : files) (kd : kp_data)
    (d : list (string * pyval)) (rest : list pyval) (v : pyval) (ex : exn) :
  fetch_latest_kp (kp_reply e) = Ok (Some kd) ->
  flare_reply e = JsonBody (PList (PDict d :: rest)) ->
  dict_get d "classType" = Some v ->
  py_index0 v = Raise ex ->
  check_and_alert e fs = (Ok tt, fs, [Printed (LogCheckError ex)]).
Proof.
  intros Hkp Hreply Hv Hex.
  assert (Hnot : is_request_exception ex = false).
  { destruct v as [| | | |[|c t]|[|x l]|]; cbn in Hex;
      solve [discriminate | injection Hex as <-; reflexivity]. }
  assert (Hbody : fetch_flare_body (flare_reply e) = Raise ex).
  { rewrite Hreply. unfold fetch_flare_body.
    cbn [http_get_json py_truthy negb py_index0 py_get obind].
    rewrite Hv. cbn [obind]. rewrite Hex. reflexivity. }
  unfold check_and_alert, check_body, fetch_latest_nasa_flare, try_except, bind, lift.
  rewrite Hkp, Hbody, Hnot. reflexivity.
Qed.

(** ** Errors of the scorer *)

(** X15: [score_risk] raises only on a bad input, and says which: the
    exception of [float(kp_value)] when [kp_value] is not [None] and
    [float] rejects it, and otherwise a [TypeError] when [cme_speed] is
    neither [None] nor a number; the flare class never makes it raise. *)
Theorem score_risk_raises_only_on_bad_input (kp_value flare_class cme_speed : pyval) :
  match score_risk kp_value flare_class cme_speed with
  | Ok _ =>
      (kp_value = PNone \/ exists f, py_float kp_value = Ok f) /\
      none_or_number cme_speed = true
  | Raise ex =>
      (kp_value <> PNone /\ py_float kp_value = Raise ex) \/
      ((kp_value = PNone \/ exists f, py_float kp_value = Ok f) /\
       none_or_number cme_speed = false /\ ex = TypeError)
  end.
Proof.
  unfold score_risk.
  assert (Hkp : (kp_value = PNone /\
                 match kp_value with
                 | PNone => Ok green
                 | _ => kp <-- py_float kp_value ;;;
                        Ok (if float_ge kp f6_0 then red
                            else if float_ge kp f3_0 then yellow else green)
                 end = Ok green)
                \/ (kp_value <> PNone /\
                    match kp_value with
                    | PNone => Ok green
                    | _ => kp <-- py_float kp_value ;;;
                           Ok (if float_ge kp f6_0 then red
                               else if float_ge kp f3_0 then yellow else green)
                    end
                    = (kp <-- py_float kp_value ;;;
                       Ok (if float_ge kp f6_0 then red
                           else if float_ge kp f3_0 then yellow else green)))).
  { destruct kp_value; [left; auto | right; split; [discriminate | reflexivity] ..]. }
  destruct Hkp as [[Hnone ->] | [Hsome ->]].
  - cbn [obind].
    destruct cme_speed; cbn [py_gt_int obind none_or_number];
      repeat match goal with
             | |- context [if ?b then _ else _] => destruct b; cbn [obind]
             end; auto 6.
  - destruct (py_float kp_value) as [f|ex]; cbn [obind]; [|auto].
    destruct cme_speed; cbn [py_gt_int obind none_or_number];
      repeat match goal with
             | |- context [if ?b then _ else _] => destruct b; cbn [obind]
             end; eauto 7.
Qed.

(** ** The layout of a message *)

Lemma class_shown_iff (flare_class : pyval) :
  py_truthy flare_class
  && (py_eq_str flare_class "X" || py_eq_str flare_class "M")
  = py_eq_str flare_class "X" || py_eq_str flare_class "M".
Proof.
  destruct flare_class as [| | | |s| |]; cbn [py_eq_str orb];
    try apply andb_false_r.
  cbn [py_truthy].
  destruct (String.eqb_spec s "X") as [-> | _]; [reflexivity|].
  destruct (String.eqb_spec s "M") as [-> | _]; [reflexivity|].
  apply andb_false_r.
Qed.

(** X16: the lines of a message.  The reading line names the flare class
    exactly for the classes X and M, and the CME speed exactly when it is
    truthy.  A red message carries the navigation advisory, the power
    advisory and the flare-risk note whatever data is present; a green
    message ends with the sentence "No immediate action needed." in every
    language; a language other than "en" and "ml" is rendered in
    English. *)
Theorem message_layout (r : risk) (kp_val time_str flare_class cme_speed : pyval)
    (lang : string) :
  let p := if String.eqb lang "ml" then phrases_ml else phrases_en in
  let reading :=
    [Lit (when p); Lit ": "; Fmt time_str; Lit " (Kp="; Fmt kp_val; Lit ")"]
    ++ (if py_eq_str flare_class "X" || py_eq_str flare_class "M"
        then [Lit " | Flare Class: "; Fmt flare_class] else [])
    ++ (if py_truthy cme_speed
        then [Lit " | CME Speed: "; Fmt cme_speed; Lit " km/s"] else []) in
  body_lines r kp_val time_str flare_class cme_speed lang
  = match r with
    | red =>
        [[Lit (title_red p)]; reading; [Lit (gps_advice p)];
         [Lit (power_advice p)]; [Lit (flare_risk_note p)]]
    | yellow =>
        [[Lit (title_yellow p)]; reading; [Lit (gps_advice p)]]
        ++ (if py_eq_str flare_class "M" || py_truthy cme_speed
            then [[Lit (flare_risk_note p)]] else [])
    | green =>
        [[Lit (title_green p)]; reading; [Lit "No immediate action needed."]]
    end.
Proof.
  cbv zeta. unfold body_lines. rewrite class_shown_iff.
  assert (Hp : PHRASES lang = if String.eqb lang "ml" then phrases_ml else phrases_en).
  { unfold PHRASES. destruct (String.eqb_spec lang "en") as [-> | _]; reflexivity. }
  rewrite Hp. generalize (if String.eqb lang "ml" then phrases_ml else phrases_en).
  intros p.
  destruct (py_eq_str flare_class "X" || py_eq_str flare_class "M"),
           (py_truthy cme_speed), r;
    try reflexivity;
    destruct (py_eq_str flare_class "M"); reflexivity.
Qed.

(** ** The bot and the status file *)

Lemma load_cache_any_status (c : file) :
  exists v, forall st, load_cache (mk_files c st) = (Ok v, mk_files c st, []).
Proof. destruct c; eexists; intros st; reflexivity. Qed.

(** The early stop of [cycle_cases], with its log, for every status
    file. *)
Lemma cycle_cases_cache (e : cycle_env) (c : file) :
  (exists s d, forall st,
      computes e (mk_files c st) s /\ cache_loads (mk_files c st) d) \/
  (exists log, forall st,
      check_and_alert e (mk_files c st) = (Ok tt, mk_files c st, log)).
Proof.
  destruct (fetch_flare_any_store (flare_reply e)) as (o1 & l1 & Q1 & E1).
  destruct (fetch_cme_any_store (cme_reply e)) as (o2 & l2 & Q2 & E2).
  destruct (load_cache_any_status c) as [v Hv].
  destruct (fetch_latest_kp (kp_reply e)) as [[kd|]|ex] eqn:Hkp.
  2,3: right; eexists; intros st;
       unfold check_and_alert, check_body, try_except, bind, lift;
       rewrite Hkp; reflexivity.
  destruct o1 as [fdo|ex].
  2: { right; eexists; intros st.
       unfold check_and_alert, check_body, try_except, bind, lift.
       rewrite Hkp, E1. cycle_step. reflexivity. }
  destruct o2 as [cdo|ex].
  2: { right; eexists; intros st.
       unfold check_and_alert, check_body, try_except, bind, lift.
       rewrite Hkp, E1, E2. cycle_step. reflexivity. }
  destruct (score_risk (kd_kp kd)
              (match fdo with Some fd => fd_class fd | None => PNone end)
              (match cdo with Some cd => cd_speed cd | None => PNone end))
    as [r|ex] eqn:Hr.
  2: { right; eexists; intros st.
       unfold check_and_alert, check_body, try_except, bind, lift.
       rewrite Hkp, E1, E2, Hr. cycle_step. reflexivity. }
  assert (Hd : (exists d, v = PDict d) \/ py_get v "last_kp" PNone = Raise AttributeError).
  { destruct v; eauto. }
  destruct Hd as [[d ->] | Hget].
  - left. exists (mk_sampling kd fdo cdo l1 l2 r), d. intros st.
    unfold computes, cache_loads.
    cbn [sp_kp sp_flare sp_cme sp_flare_log sp_cme_log sp_risk].
    rewrite E1, E2, Hv. auto.
  - right; eexists; intros st.
    unfold check_and_alert, check_body, try_except, bind, lift.
    rewrite Hkp, E1, E2, Hr, Hv, Hget. cycle_step. reflexivity.
Qed.

(** X17: the bot never reads the status file: with the same cache file and
    the same outside, a cycle prints and sends the same and leaves the same
    cache file whatever the status file holds, and the status file it
    leaves is either the one it found or a record that does not depend on
    it. *)
Theorem bot_never_reads_status (e : cycle_env) (c st st' : file) :
  log_of (check_and_alert e (mk_files c st))
  = log_of (check_and_alert e (mk_files c st')) /\
  cache_file (store_of (check_and_alert e (mk_files c st)))
  = cache_file (store_of (check_and_alert e (mk_files c st'))) /\
  (status_file (store_of (check_and_alert e (mk_files c st)))
   = status_file (store_of (check_and_alert e (mk_files c st')))
   \/ (status_file (store_of (check_and_alert e (mk_files c st))) = st /\
       status_file (store_of (check_and_alert e (mk_files c st'))) = st')).
Proof.
  destruct (cycle_cases_cache e c) as [(s & d & H) | (log & H)].
  - destruct (H st) as [Hc Hl]. destruct (H st') as [Hc' Hl'].
    rewrite (cycle_run _ _ s d Hc Hl), (cycle_run _ _ s d Hc' Hl').
    destruct (should_send d (sp_risk s)); [destruct (gateway e)|];
      repeat split; left; reflexivity.
  - rewrite (H st), (H st'). repeat split. right. split; reflexivity.
Qed.

(** ** The cycle on paths that may not open *)

(** On paths that open, the cycle for any access is the cycle above. *)
Lemma check_and_alert_at_full (acc : access) (e : cycle_env) (fs : files) :
  cache_readable acc = true ->
  cache_writable acc = true ->
  status_writable acc = true ->
  check_and_alert_at acc e fs = check_and_alert e fs.
Proof.
  destruct acc as [cr cw sw]. cbn [cache_readable cache_writable status_writable].
  intros -> -> ->.
  unfold check_and_alert_at, check_and_alert, check_body_at, check_body,
    load_cache_at, load_cache, save_cache_at, save_cache,
    write_status_at, write_status.
  cbn [cache_readable cache_writable status_writable].
  reflexivity.
Qed.

Lemma run_cycles_at_full (acc : access) (es : list cycle_env) (fs : files) :
  cache_readable acc = true ->
  cache_writable acc = true ->
  status_writable acc = true ->
  run_cycles_at acc es fs = run_cycles es fs.
Proof.
  intros Hr Hw Hs. revert fs.
  induction es as [|e es IH]; intros fs; [reflexivity|].
  cbn [run_cycles_at run_cycles].
  rewrite (check_and_alert_at_full acc e fs Hr Hw Hs).
  destruct (check_and_alert e fs) as [[o fs1] l1]. rewrite IH. reflexivity.
Qed.

Lemma cache_loads_at_readable (acc : access) (fs : files)
    (d : list (string * pyval)) :
  cache_readable acc = true ->
  (cache_loads_at acc fs d <-> cache_loads fs d).
Proof.
  intros Hr. unfold cache_loads_at, cache_loads, load_cache_at, load_cache.
  rewrite Hr. destruct (cache_file fs); reflexivity.
Qed.

(** How a cycle that computes a risk ends, for any access. *)
Lemma cycle_run_at (acc : access) (e : cycle_env) (fs : files) (s : sampling)
    (d : list (string * pyval)) :
  computes e fs s ->
  cache_loads_at acc fs d ->
  check_and_alert_at acc e fs =
    if status_writable acc then
      if should_send d (sp_risk s) then
        match gateway e with
        | Ok sid =>
            if cache_writable acc then ends_sent e s d sid
            else ends_unsaved e fs s sid
        | Raise ex => ends_failed e fs s ex
        end
      else ends_quiet e fs s
    else ends_unwritten fs s.
Proof.
  intros (Hkp & Hfl & Hcme & Hscore) Hload.
  unfold cache_loads_at in Hload.
  unfold check_and_alert_at, check_body_at, try_except, bind, lift.
  rewrite Hkp, Hfl, Hcme.
  fold (kp_of s) (flare_class_of s) (cme_speed_of s).
  rewrite Hscore, Hload.
  unfold should_send, stored, py_get, write_status_at, save_cache_at.
  destruct (status_writable acc), (cache_writable acc);
    destruct (py_truthy
                match dict_get d "last_kp" with Some x => x | None => PNone end);
    cbn [negb orb ret];
    try destruct (py_eq_str
                    match dict_get d "last_risk" with Some x => x | None => PNone end
                    (risk_str (sp_risk s)));
    cbn [negb];
    unfold send_whatsapp, bind, emit, lift, print, emit,
      ends_sent, ends_failed, ends_quiet, ends_unsaved, ends_unwritten;
    cbn [cache_file status_file];
    try destruct (gateway e) as [sid|ex];
    cbn [any_exception print emit py_setitem cache_file status_file];
    log_norm; reflexivity.
Qed.




(** X4: in a cycle whose status path and cache path open for writing, a
    dispatch that the gateway answered leaves in the cache file the Kp,
    the time and the risk of the cycle with the dispatch id and its time,
    and keeps every other key the cache had; where the path opens for
    reading too, that is the dict the next cycle loads. *)
Theorem dispatch_updates_cache (acc : access) (e : cycle_env) (fs : files)
    (s : sampling) (d : list (string * pyval)) (sid : string) :
  computes e fs s ->
  cache_loads_at acc fs d ->
  status_writable acc = true ->
  cache_writable acc = true ->
  should_send d (sp_risk s) = true ->
  gateway e = Ok sid ->
  cache_file (store_of (check_and_alert_at acc e fs))
  = FileJson (PDict (cache_after e s sid d)) /\
  (cache_readable acc = true ->
   cache_loads_at acc (store_of (check_and_alert_at acc e fs))
     (cache_after e s sid d)) /\
  stored (cache_after e s sid d) "last_kp" = kp_of s /\
  stored (cache_after e s sid d) "last_time" = time_of e s /\
  stored (cache_after e s sid d) "last_risk" = PStr (risk_str (sp_risk s)) /\
  stored (cache_after e s sid d) "last_sent_sid" = PStr sid /\
  stored (cache_after e s sid d) "last_sent_at" = PStr (sent_at e) /\
  (forall k, ~ In k dispatch_keys ->
             dict_get (cache_after e s sid d) k = dict_get d k).
Proof.
  intros Hc Hl Hsw Hcw Hs Hg.
  assert (Hfile : cache_file (store_of (check_and_alert_at acc e fs))
                  = FileJson (PDict (cache_after e s sid d))).
  { rewrite (cycle_run_at acc e fs s d Hc Hl), Hsw, Hs, Hg, Hcw. reflexivity. }
  split; [exact Hfile|].
  split.
  { intros Hr. unfold cache_loads_at, load_cache_at. rewrite Hfile, Hr. reflexivity. }
  unfold stored, cache_after.
  repeat (split;
          [rewrite ?dict_get_set_other by reflexivity;
           rewrite dict_get_set_same; reflexivity|]).
  intros k Hk. unfold dispatch_keys in Hk.
  repeat (apply not_in_cons_eqb in Hk; destruct Hk as [? Hk]).
  rewrite !dict_get_set_other by assumption. reflexivity.
Qed.

(** X18: where the cache path opens for reading and for writing and the
    status path for writing, a run that starts with an absent or
    unloadable cache and computes the same severity in every cycle calls
    the notifier exactly once, in its first cycle, when that cycle reads a
    truthy Kp and the gateway answers. *)
Theorem constant_severity_run_sends_once (acc : access) (e : cycle_env)
    (es : list cycle_env) (fs : files) (s : sampling) (sid : string) :
  cache_readable acc = true ->
  cache_writable acc = true ->
  status_writable acc = true ->
  cache_file fs = FileMissing \/ cache_file fs = FileUnreadable ->
  computes e fs s ->
  py_truthy (kp_of s) = true ->
  gateway e = Ok sid ->
  Forall (fun e' => exists s', computes e' fs s' /\ sp_risk s' = sp_risk s) es ->
  notifications (snd (run_cycles_at acc (e :: es) fs)) = 1%nat.
Proof.
  intros Hr Hw Hsw Hf Hc Hkp Hg Hall.
  rewrite (run_cycles_at_full acc _ _ Hr Hw Hsw).
  assert (Hl : cache_loads fs []).
  { unfold cache_loads, load_cache. destruct Hf as [-> | ->]; reflexivity. }
  assert (Hl1 : cache_loads (store_of (check_and_alert e fs)) (cache_after e s sid [])).
  { rewrite (cycle_run e fs s [] Hc Hl), Hg. reflexivity. }
  destruct (cache_after_last e s sid []) as [Ekp Erisk].
  rewrite run_cycles_cons_log, notifications_app.
  rewrite (cycle_notifications e fs s [] Hc Hl).
  destruct (steady_run es (store_of (check_and_alert e fs))
              (cache_after e s sid []) (sp_risk s)) as [Hn _].
  - exact Hl1.
  - rewrite Ekp. exact Hkp.
  - exact Erisk.
  - eapply Forall_impl; [|exact Hall].
    intros e' (s' & Hc' & Hs'). exists s'. split; [|exact Hs'].
    eapply computes_any_store; exact Hc'.
  - rewrite Hn. reflexivity.
Qed.



(** ** A cache that holds another JSON value *)

(** A cycle that computes a risk and finds in the cache file a JSON value
    that is not an object stops at [cache.get]: nothing is written and
    nothing is sent. *)
Lemma cycle_stops_at_cache (e : cycle_env) (fs : files) (s : sampling)
    (v : pyval) :
  computes e fs s ->
  cache_file fs = FileJson v ->
  (forall d, v <> PDict d) ->
  check_and_alert e fs
  = (Ok tt, fs,
     sp_flare_log s ++ sp_cme_log s ++ [Printed (LogCheckError AttributeError)]).
Proof.
  intros (Hkp & Hfl & Hcme & Hscore) Hfile Hv.
  assert (Hget : py_get v "last_kp" PNone = Raise AttributeError).
  { destruct v; try reflexivity. exfalso. apply (Hv d). reflexivity. }
  unfold check_and_alert, check_body, try_except, bind, lift.
  rewrite Hkp, Hfl, Hcme.
  fold (kp_of s) (flare_class_of s) (cme_speed_of s).
  rewrite Hscore. unfold load_cache. rewrite Hfile, Hget.
  cbn [any_exception print emit]. log_norm. reflexivity.
Qed.

(** C7 (the code departs from it): two stores at which the claim fails.
    With the record the program writes after a cycle that read Kp 0.0, a
    green result equal to the recorded green still calls the notifier;
    and with a cache file that holds a JSON list, a cycle that computes
    the risk stops at [cache.get] and writes no status record. *)
Theorem status_record_corner_cases :
  computes (calm 0 (Ok "SM2")) (store_after 0 green "SM1") (calm_sampling 0 green) /\
  cache_loads (store_after 0 green "SM1") (record_of 0 green "SM1") /\
  stored (record_of 0 green "SM1") "last_risk" = PStr (risk_str green) /\
  notifications
    (log_of (check_and_alert (calm 0 (Ok "SM2")) (store_after 0 green "SM1")))
  = 1%nat /\
  computes (calm 2 (Ok "SM1"))
    (mk_files (FileJson (PList [PInt 1; PInt 2])) FileMissing)
    (calm_sampling 2 green) /\
  check_and_alert (calm 2 (Ok "SM1"))
    (mk_files (FileJson (PList [PInt 1; PInt 2])) FileMissing)
  = (Ok tt, mk_files (FileJson (PList [PInt 1; PInt 2])) FileMissing,
     [Printed (LogCheckError AttributeError)]).
Proof. repeat split. Qed.

(** X8: after a cycle that computes a risk, when the cache file is absent,
    unloadable or holds a JSON object, the page [/] is rendered with the
    status record of that cycle and [/data] answers 200 with the same
    record, whether or not the message went out; when the cache file holds
    another JSON value, the cycle has stopped before the status write and
    both routes answer as they did before it. *)
Theorem dashboard_shows_latest_sample (e : cycle_env) (fs : files) (s : sampling) :
  computes e fs s ->
  (forall d, cache_loads fs d ->
     index (store_of (check_and_alert e fs))
     = Rendered "dashboard.html" (status_of e s) /\
     get_data (store_of (check_and_alert e fs)) = JsonResponse 200 (status_of e s)) /\
  (forall v, cache_file fs = FileJson v -> (forall d, v <> PDict d) ->
     index (store_of (check_and_alert e fs)) = index fs /\
     get_data (store_of (check_and_alert e fs)) = get_data fs).
Proof.
  intros Hc. split.
  - intros d Hl. unfold index, get_data.
    rewrite (cycle_status e fs s d Hc Hl). split; reflexivity.
  - intros v Hfile Hv. rewrite (cycle_stops_at_cache e fs s v Hc Hfile Hv).
    split; reflexivity.
Qed.

(** X19: when both NASA providers fail with a request failure, a cycle
    that has a Kp reading goes on with Kp alone: it prints the two
    failures and scores the Kp with no flare and no CME.  When the cache
    file is absent, unloadable or holds a JSON object, it writes that
    status record and decides on the dispatch as usual; when the cache
    file holds another JSON value, it stops at [cache.get], writes nothing
    and sends nothing. *)
Theorem partial_data_cycle (e : cycle_env) (fs : files) (kd : kp_data) :
  fetch_latest_kp (kp_reply e) = Ok (Some kd) ->
  http_get_json (flare_reply e) = Raise RequestException ->
  http_get_json (cme_reply e) = Raise RequestException ->
  exists r,
    score_risk (kd_kp kd) PNone PNone = Ok r /\
    (forall d, cache_loads fs d ->
       status_file (store_of (check_and_alert e fs))
       = FileJson (current_status r (kd_kp kd) PNone PNone (clean_time e)) /\
       notifications (log_of (check_and_alert e fs))
       = (if should_send d r then 1%nat else 0%nat) /\
       In (Printed (LogFlareError RequestException)) (log_of (check_and_alert e fs)) /\
       In (Printed (LogCmeError RequestException)) (log_of (check_and_alert e fs))) /\
    (forall v, cache_file fs = FileJson v -> (forall d, v <> PDict d) ->
       check_and_alert e fs
       = (Ok tt, fs,
          [Printed (LogFlareError RequestException);
           Printed (LogCmeError RequestException);
           Printed (LogCheckError AttributeError)])).
Proof.
  intros Hkp Hfl Hcme.
  destruct (fetch_latest_kp_reading _ _ Hkp) as [geo Hgeo].
  destruct (score_risk_returns geo PNone None) as [r Hr].
  cbn [of_speed] in Hr. rewrite <- Hgeo in Hr.
  exists r. split; [exact Hr|].
  assert (Hc : computes e fs
                 (mk_sampling kd None None
                    [Printed (LogFlareError RequestException)]
                    [Printed (LogCmeError RequestException)] r)).
  { unfold computes. split; [exact Hkp|]. split; [|split; [|exact Hr]].
    - unfold fetch_latest_nasa_flare, fetch_flare_body, try_except, lift.
      rewrite Hfl. reflexivity.
    - unfold fetch_latest_cme, fetch_cme_body, try_except, lift.
      rewrite Hcme. reflexivity. }
  split.
  - intros d Hl.
    split; [exact (cycle_status e fs _ d Hc Hl)|].
    split; [exact (cycle_notifications e fs _ d Hc Hl)|].
    rewrite (cycle_run e fs _ d Hc Hl). cbn [sp_risk].
    destruct (should_send d r); [destruct (gateway e)|];
      unfold log_of, ends_sent, ends_failed, ends_quiet;
      cbn [snd sp_flare_log sp_cme_log app In];
      (split; [left; reflexivity | right; left; reflexivity]).
  - intros v Hfile Hv.
    rewrite (cycle_stops_at_cache e fs _ v Hc Hfile Hv). reflexivity.
Qed.

End Runtime.

(** * Closed instances *)

Lemma calm_computes (z : Z) (g : outcome string) (fs : files) (r : risk) :
  score_risk no_text_floats (PFloat (float_of_Z z)) PNone PNone = Ok r ->
  (forall s, float_of_Z z <> S754_infinity s) ->
  computes no_text_floats (calm z g) fs (calm_sampling z r).
Proof.
  intros Hr Hfin. unfold computes. repeat split; try exact Hr.
  unfold fetch_latest_kp, calm, kp_reply. cbn.
  destruct (float_of_Z z) eqn:E; try reflexivity.
  exfalso. apply (Hfin s). reflexivity.
Qed.



(** Witness of C3: Kp 2 raised to 7, flare class C raised to M, and a
    speed of 500 raised to 1200. *)
Lemma score_risk_monotone_witness :
  exists r r' : risk,
    score_risk no_text_floats (PFloat (float_of_Z 2)) (PStr "C") (PInt 500) = Ok r /\
    score_risk no_text_floats (PFloat (float_of_Z 7)) (PStr "M") (PInt 1200) = Ok r' /\
    risk_le r r'.
Proof.
  apply (score_risk_monotone no_text_floats
           (Some (float_of_Z 2)) (Some (float_of_Z 7))
           (Some "C") (Some "M") (Some (NInt 500)) (Some (NInt 1200)));
    cbv; repeat constructor.
Defined.

(** Witness of C6: the cache records green for Kp 2; the next reading is
    Kp 7, red, and the gateway raises; the cycle after reads Kp 7 again. *)
Lemma failed_dispatch_is_retried_witness :
  let fs := store_after 2 green "SM1" in
  let e := calm 7 (Raise TwilioException) in
  let fs1 := store_of (check_and_alert no_text_floats e fs) in
  status_file fs1 = FileJson (status_of e (calm_sampling 7 red)) /\
  cache_file fs1 = cache_file fs /\
  notifications (log_of (check_and_alert no_text_floats e fs)) = 1%nat /\
  notifications (log_of (check_and_alert no_text_floats (calm 7 (Ok "SM2")) fs1)) = 1%nat.
Proof.
  apply (failed_dispatch_is_retried no_text_floats
           (calm 7 (Raise TwilioException)) (calm 7 (Ok "SM2"))
           (store_after 2 green "SM1")
           (calm_sampling 7 red) (calm_sampling 7 red)
           (record_of 2 green "SM1") TwilioException);
    try reflexivity; apply calm_computes; try reflexivity; discriminate.
Defined.

(** The claim C6 fails there: after the failed dispatch of red the cache
    still holds green, and the next cycle, red again, calls the notifier. *)
Lemma failed_dispatch_counterexample :
  let fs := store_after 2 green "SM1" in
  let fs1 := store_of (check_and_alert no_text_floats
                         (calm 7 (Raise TwilioException)) fs) in
  computes no_text_floats (calm 7 (Raise TwilioException)) fs (calm_sampling 7 red) /\
  computes no_text_floats (calm 7 (Ok "SM2")) fs1 (calm_sampling 7 red) /\
  notifications (log_of (check_and_alert no_text_floats
                           (calm 7 (Raise TwilioException)) fs)) = 1%nat /\
  cache_loads fs1 (record_of 2 green "SM1") /\
  stored (record_of 2 green "SM1") "last_risk" <> PStr (risk_str red) /\
  notifications (log_of (check_and_alert no_text_floats (calm 7 (Ok "SM2")) fs1))
    <> 0%nat.
Proof.
  cbv zeta. repeat split; try discriminate.
Qed.

(** The scenario of the specification: Kp 2.0, no flare, no CME, previous
    severity green. *)
Lemma quiet_green_scenario :
  let e := calm 2 (Ok "SM2") in
  let fs := store_after 2 green "SM1" in
  status_file (store_of (check_and_alert no_text_floats e fs))
  = FileJson (PDict [("risk", PStr "green");
                     ("kp_value", PFloat (float_of_Z 2));
                     ("flare_class", PNone);
                     ("cme_speed", PNone);
                     ("time", PStr "2025-10-04 12:00:05 UTC")]) /\
  notifications (log_of (check_and_alert no_text_floats e fs)) = 0%nat.
Proof.
  cbv zeta.
  assert (H := status_written_when_cache_is_dict no_text_floats
                 (calm 2 (Ok "SM2")) (store_after 2 green "SM1")
                 (calm_sampling 2 green) (record_of 2 green "SM1")).
  destruct H as [Hst Hnone].
  - apply calm_computes; [reflexivity | discriminate].
  - reflexivity.
  - split; [exact Hst|]. apply Hnone; reflexivity.
Defined.


(** The claim C9 fails on a real yellow message: Kp 4 with a C-class flare
    scores yellow, flare data is present, and the message has no
    flare-risk note. *)
Lemma yellow_with_flare_data_lacks_note :
  fetch_flare_body (JsonBody (PList [PDict [("classType", PStr "C3.2")]]))
  = Ok (Some (mk_flare_data (PStr "C") PNone (PDict [("classType", PStr "C3.2")]))) /\
  score_risk no_text_floats (PFloat (float_of_Z 4)) (PStr "C") PNone = Ok yellow /\
  ~ In [Lit (flare_risk_note (PHRASES "en"))]
       (body_lines yellow (PFloat (float_of_Z 4)) (PStr "2025-10-04T12:00:00")
          (PStr "C") PNone "en").
Proof.
  repeat split. cbv. intros H.
  repeat (destruct H as [H | H]; [discriminate H|]). exact H.
Qed.



(** * Closed instances of the further properties *)

(** Witness of X3: the cache records green for Kp 2, the cycle reads Kp 7
    and the gateway answers. *)
Lemma cache_changes_only_after_send_witness :
  exists s d sid,
    computes no_text_floats (calm 7 (Ok "SM2")) (store_after 2 green "SM1") s /\
    cache_loads (store_after 2 green "SM1") d /\
    should_send d (sp_risk s) = true /\
    gateway (calm 7 (Ok "SM2")) = Ok sid /\
    cache_file (store_of (check_and_alert no_text_floats (calm 7 (Ok "SM2"))
                            (store_after 2 green "SM1")))
    = FileJson (PDict (cache_after (calm 7 (Ok "SM2")) s sid d)) /\
    notifications (log_of (check_and_alert no_text_floats (calm 7 (Ok "SM2"))
                             (store_after 2 green "SM1"))) = 1%nat.
Proof.
  apply (cache_changes_only_after_send no_text_floats
           (calm 7 (Ok "SM2")) (store_after 2 green "SM1")).
  intros H. vm_compute in H. discriminate H.
Defined.

Lemma calm_all_green (fs : files) :
  Forall (fun e => exists s, computes no_text_floats e fs s /\ sp_risk s = green)
         [calm 2 (Ok "SM2"); calm 1 (Ok "SM3"); calm 0 (Raise TwilioException)].
Proof.
  repeat constructor.
  - exists (calm_sampling 2 green). split; [|reflexivity].
    apply calm_computes; [reflexivity | discriminate].
  - exists (calm_sampling 1 green). split; [|reflexivity].
    apply calm_computes; [reflexivity | discriminate].
  - exists (calm_sampling 0 green). split; [|reflexivity].
    apply calm_computes; [reflexivity | discriminate].
Qed.

(** Witness of X5: the cache records green for Kp 2, and three cycles read
    Kp 2, 1 and 0. *)
Lemma steady_severity_is_silent_witness :
  notifications
    (snd (run_cycles no_text_floats
            [calm 2 (Ok "SM2"); calm 1 (Ok "SM3"); calm 0 (Raise TwilioException)]
            (store_after 2 green "SM1"))) = 0%nat /\
  cache_file
    (fst (run_cycles no_text_floats
            [calm 2 (Ok "SM2"); calm 1 (Ok "SM3"); calm 0 (Raise TwilioException)]
            (store_after 2 green "SM1")))
  = cache_file (store_after 2 green "SM1").
Proof.
  apply (steady_severity_is_silent no_text_floats _ _ (record_of 2 green "SM1") green).
  - reflexivity.
  - reflexivity.
  - reflexivity.
  - apply calm_all_green.
Defined.

(** Witness of X6: a run from the store before the program ever ran. *)
Lemma run_keeps_files_well_formed_witness :
  (exists d', cache_loads
                (fst (run_cycles no_text_floats
                        [calm 7 (Ok "SM1"); calm 2 (Raise TwilioException)]
                        fresh_store)) d') /\
  status_from_bot
    (status_file (fst (run_cycles no_text_floats
                         [calm 7 (Ok "SM1"); calm 2 (Raise TwilioException)]
                         fresh_store))).
Proof.
  apply (run_keeps_files_well_formed no_text_floats).
  - exists []. reflexivity.
  - left. reflexivity.
Defined.

(** Witness of X7: the Kp feed answers an empty list. *)
Lemma no_kp_data_cycle_witness :
  fetch_latest_kp no_text_floats
    (kp_reply (outside (JsonBody (PList [])) TimedOut TimedOut (Ok "SM1")))
  = Ok None /\
  check_and_alert no_text_floats
    (outside (JsonBody (PList [])) TimedOut TimedOut (Ok "SM1")) fresh_store
  = (Ok tt, fresh_store, [Printed LogNoKp]).
Proof.
  apply (no_kp_data_cycle no_text_floats _ fresh_store (PList [])); reflexivity.
Defined.

(** Witness of X9: a run from the store before the program ever ran. *)
Lemma dashboard_never_fails_after_run_witness :
  get_data (fst (run_cycles no_text_floats [calm 7 (Raise TwilioException)] fresh_store))
  <> Uncaught.
Proof.
  destruct (dashboard_never_fails_after_run no_text_floats
              [calm 7 (Raise TwilioException)] fresh_store)
    as [[_ H] | (r & kp & fc & cs & t & _ & H)].
  - left. reflexivity.
  - rewrite H. discriminate.
  - rewrite H. discriminate.
Defined.

(** Witness of X10: an entry whose ["kp_index"] is null and whose ["kp"]
    is 3 gives no Kp. *)
Lemma kp_index_decides_witness :
  exists t,
    fetch_latest_kp no_text_floats
      (JsonBody (PList [PDict [("time_tag", PStr "2025-10-04T12:00:00");
                               ("kp_index", PNone); ("kp", PInt 3)]]))
    = Ok (Some (mk_kp_data PNone t
                  (PDict [("time_tag", PStr "2025-10-04T12:00:00");
                          ("kp_index", PNone); ("kp", PInt 3)]))).
Proof.
  destruct (kp_index_decides no_text_floats
              [("time_tag", PStr "2025-10-04T12:00:00");
               ("kp_index", PNone); ("kp", PInt 3)] [] PNone eq_refl)
    as (t & _ & H).
  exists t. exact H.
Defined.

(** Witness of X11: a flagged analysis at 600, one at 900 that is not
    flagged and one at 2000 without a flag are passed over; the analysis
    at 800 is returned, not the later one at 1500. *)
Lemma cme_fetch_selects_first_significant_witness :
  fetch_latest_cme
    (JsonBody (PList ([cme_entry 600;
                       PDict [("isMostAccurate", PBool false); ("speed", PInt 900)];
                       PDict [("speed", PInt 2000)]]
                      ++ cme_entry 800 :: [cme_entry 1500])))
    fresh_store
  = (Ok (Some (mk_cme_data (PInt 800) (cme_entry 800))), fresh_store, []).
Proof.
  refine (proj2 (cme_fetch_selects_first_significant
                   [cme_entry 600;
                    PDict [("isMostAccurate", PBool false); ("speed", PInt 900)];
                    PDict [("speed", PInt 2000)]]
                   [cme_entry 1500] (cme_entry 800) fresh_store _) _ eq_refl _).
  - repeat constructor.
    + eexists. split; [reflexivity | right; reflexivity].
    + eexists. split; [reflexivity | left; reflexivity].
    + eexists. split; [reflexivity | left; reflexivity].
  - eexists. repeat split.
Defined.

(** Witness of X12: Kp 1 with a CME of speed 800. *)
Lemma reported_cme_raises_alert_witness :
  sp_risk (eruptive_sampling 1 800 yellow) <> green /\
  In [Lit (flare_risk_note (PHRASES "ml"))]
     (body_lines yellow (PFloat (float_of_Z 1)) (PStr "2025-10-04T12:00:00")
        PNone (PInt 800) "ml").
Proof.
  apply (reported_cme_raises_alert no_text_floats
           (eruptive 1 800 (Ok "SM1")) fresh_store
           (eruptive_sampling 1 800 yellow) (mk_cme_data (PInt 800) (cme_entry 800)) "ml").
  - repeat split.
  - reflexivity.
Defined.

(** Witness of X13: the class of ["M1.2"] is M. *)
Lemma flare_class_is_first_character_witness :
  fetch_flare_body (JsonBody (PList [PDict [("classType", PStr "M1.2")]]))
  = Ok (Some (mk_flare_data (PStr "M") PNone (PDict [("classType", PStr "M1.2")]))).
Proof.
  apply (proj2 (flare_class_is_first_character [("classType", PStr "M1.2")] [])
           "M"%char "1.2"); reflexivity.
Defined.

(** Witness of X14: Kp 7, and a flare entry whose ["classType"] is null. *)
Lemma malformed_flare_stops_cycle_witness :
  check_and_alert no_text_floats
    (outside (JsonBody (PList [kp_entry 7]))
       (JsonBody (PList [PDict [("classType", PNone)]]))
       (JsonBody (PList [])) (Ok "SM1"))
    fresh_store
  = (Ok tt, fresh_store, [Printed (LogCheckError TypeError)]).
Proof.
  apply (malformed_flare_stops_cycle no_text_floats _ fresh_store
           (mk_kp_data (PFloat (float_of_Z 7)) (PStr "2025-10-04T12:00:00") (kp_entry 7))
           [("classType", PNone)] [] PNone TypeError); reflexivity.
Defined.


(** Witness of X4: the cache records green for Kp 2, the cycle reads Kp 7
    and the gateway answers; both paths open. *)
Lemma dispatch_updates_cache_witness :
  cache_file (store_of (check_and_alert_at no_text_floats full_access
                          (calm 7 (Ok "SM2")) (store_after 2 green "SM1")))
  = FileJson (PDict (cache_after (calm 7 (Ok "SM2")) (calm_sampling 7 red) "SM2"
                       (record_of 2 green "SM1"))) /\
  stored (cache_after (calm 7 (Ok "SM2")) (calm_sampling 7 red) "SM2"
            (record_of 2 green "SM1")) "last_risk" = PStr "red" /\
  stored (cache_after (calm 7 (Ok "SM2")) (calm_sampling 7 red) "SM2"
            (record_of 2 green "SM1")) "last_sent_sid" = PStr "SM2".
Proof.
  destruct (dispatch_updates_cache no_text_floats full_access
              (calm 7 (Ok "SM2")) (store_after 2 green "SM1")
              (calm_sampling 7 red) (record_of 2 green "SM1") "SM2")
    as (Hfile & _ & _ & _ & Hrisk & Hsid & _).
  - apply calm_computes; [reflexivity | discriminate].
  - reflexivity.
  - reflexivity.
  - reflexivity.
  - reflexivity.
  - reflexivity.
  - split; [exact Hfile|]. split; [exact Hrisk | exact Hsid].
Defined.

(** Witness of X8: the first cycle ever, with Kp 2; and the same cycle at
    a cache file that holds a JSON list. *)
Lemma dashboard_shows_latest_sample_witness :
  (index (store_of (check_and_alert no_text_floats (calm 2 (Ok "SM1")) fresh_store))
   = Rendered "dashboard.html"
       (status_of (calm 2 (Ok "SM1")) (calm_sampling 2 green)) /\
   get_data (store_of (check_and_alert no_text_floats (calm 2 (Ok "SM1")) fresh_store))
   = JsonResponse 200 (status_of (calm 2 (Ok "SM1")) (calm_sampling 2 green))) /\
  get_data (store_of (check_and_alert no_text_floats (calm 2 (Ok "SM1"))
                        (mk_files (FileJson (PList [PInt 1; PInt 2])) FileMissing)))
  = JsonResponse 404 (PDict [("error", PStr "No data file found")]).
Proof.
  split.
  - apply (proj1 (dashboard_shows_latest_sample no_text_floats
                    (calm 2 (Ok "SM1")) fresh_store (calm_sampling 2 green)
                    (calm_computes 2 (Ok "SM1") fresh_store green eq_refl
                       ltac:(discriminate))) []).
    reflexivity.
  - apply (proj2 (dashboard_shows_latest_sample no_text_floats
                    (calm 2 (Ok "SM1"))
                    (mk_files (FileJson (PList [PInt 1; PInt 2])) FileMissing)
                    (calm_sampling 2 green)
                    (calm_computes 2 (Ok "SM1") _ green eq_refl ltac:(discriminate)))
             (PList [PInt 1; PInt 2]) eq_refl).
    discriminate.
Defined.

(** Witness of X18: four cycles from the store before the program ever
    ran, all green; both paths open. *)
Lemma constant_severity_run_sends_once_witness :
  notifications
    (snd (run_cycles_at no_text_floats full_access
            (calm 2 (Ok "SM1")
             :: [calm 2 (Ok "SM2"); calm 1 (Ok "SM3"); calm 0 (Raise TwilioException)])
            fresh_store)) = 1%nat.
Proof.
  apply (constant_severity_run_sends_once no_text_floats full_access
           (calm 2 (Ok "SM1")) _ fresh_store (calm_sampling 2 green) "SM1").
  - reflexivity.
  - reflexivity.
  - reflexivity.
  - left. reflexivity.
  - apply calm_computes; [reflexivity | discriminate].
  - reflexivity.
  - reflexivity.
  - apply calm_all_green.
Defined.

(** Witness of X19: Kp 7 while both NASA providers time out, first cycle
    ever. *)
Lemma partial_data_cycle_witness :
  exists r,
    score_risk no_text_floats (PFloat (float_of_Z 7)) PNone PNone = Ok r /\
    status_file (store_of (check_and_alert no_text_floats
                             (outside (JsonBody (PList [kp_entry 7])) TimedOut TimedOut
                                (Ok "SM1")) fresh_store))
    = FileJson (current_status r (PFloat (float_of_Z 7)) PNone PNone
                  "2025-10-04 12:00:05 UTC") /\
    notifications (log_of (check_and_alert no_text_floats
                             (outside (JsonBody (PList [kp_entry 7])) TimedOut TimedOut
                                (Ok "SM1")) fresh_store))
    = (if should_send [] r then 1%nat else 0%nat).
Proof.
  destruct (partial_data_cycle no_text_floats
              (outside (JsonBody (PList [kp_entry 7])) TimedOut TimedOut (Ok "SM1"))
              fresh_store
              (mk_kp_data (PFloat (float_of_Z 7)) (PStr "2025-10-04T12:00:00")
                 (kp_entry 7)) eq_refl eq_refl eq_refl)
    as (r & Hr & Hdict & _).
  exists r. split; [exact Hr|].
  destruct (Hdict [] eq_refl) as (Hst & Hn & _).
  split; [exact Hst | exact Hn].
Defined.



